(** * Chat with your Docs (RAG): the React client [frontend/src/App.jsx]

    A shallow embedding of the client's event handlers and of the index
    operations they call over HTTP.

    - JavaScript strings are sequences of UTF-16 code units ([list N]).
    - The component's [useState] cells, the [messagesRef] ref, the browser's
      [localStorage] and the log of HTTP requests issued form one record
      [State]; a handler is a computation in the monad [M], which threads that
      record and an exception ([throw] / [try_catch] / [try_finally]).
    - What a handler cannot compute is handed to it as an argument: the
      behaviour of the network for each [fetch] it performs, the answer of
      [window.confirm], and the values of [uid()] and [Date.now()].
    - A handler reads the state cells through the closure of the render it was
      created in ([render <- get]), and writes through the setters, whose
      updater form acts on the latest state.
    - Handlers run to completion one after the other: no second handler runs
      while one is suspended at an [await]. *)

From Stdlib Require Import ZArith String Ascii DecimalString.
From Stdlib Require DecimalPos.
From stdpp Require Import gmap list.

Set Warnings "-register-all".
#[local] Open Scope Z_scope.

(** ** Strings *)

Definition jsstring := list N.

(** An ASCII literal of the source as code units. *)
Definition lit (s : string) : jsstring :=
  map N_of_ascii (list_ascii_of_string s).

(** [a === b] on strings. *)
Definition str_eqb (a b : jsstring) : bool := bool_decide (a = b).

(** ECMAScript WhiteSpace and LineTerminator code points, all in the BMP. *)
Definition isWhiteSpace (c : N) : bool :=
  bool_decide (c ∈ [9; 10; 11; 12; 13; 32; 160; 5760;
                    8192; 8193; 8194; 8195; 8196; 8197; 8198; 8199; 8200;
                    8201; 8202; 8232; 8233; 8239; 8287; 12288; 65279]%N).

Fixpoint trimStart (s : jsstring) : jsstring :=
  match s with
  | c :: s' => if isWhiteSpace c then trimStart s' else s
  | [] => []
  end.

Definition trimEnd (s : jsstring) : jsstring := rev (trimStart (rev s)).

(** [String.prototype.trim]. *)
Definition trim (s : jsstring) : jsstring := trimEnd (trimStart s).

(** Number-to-string of an integer count, as a template literal renders it. *)
Definition Z_to_jsstring (n : Z) : jsstring :=
  lit (NilZero.string_of_int (Z.to_int n)).

(** [Array.prototype.slice(start)] with no end index. *)
Definition slice {A} (start : Z) (l : list A) : list A :=
  let len := Z.of_nat (length l) in
  let k := if start <? 0 then Z.max (len + start) 0 else Z.min start len in
  drop (Z.to_nat k) l.

(** ** Errors and promises *)

(** What a [catch (e)] clause receives: an [Error] or [DOMException]. *)
Record js_error := mkError { err_name : jsstring; err_message : jsstring }.

(** [String(e)], that is [Error.prototype.toString]. *)
Definition String_of_error (e : js_error) : jsstring :=
  match err_name e, err_message e with
  | [], m => m
  | n, [] => n
  | n, m => n ++ lit ": " ++ m
  end.

(** [new Error(msg)]. *)
Definition Error (msg : jsstring) : js_error := mkError (lit "Error") msg.

(** The rejection [controller.abort()] produces. *)
Definition AbortError : js_error :=
  mkError (lit "AbortError") (lit "signal is aborted without reason").

(** [e?.name === "AbortError"]. *)
Definition isAbortError (e : js_error) : bool :=
  str_eqb (err_name e) (lit "AbortError").

(** A settled promise. *)
Inductive awaited (A : Type) : Type :=
| Fulfilled (a : A)
| Rejected (e : js_error).
Arguments Fulfilled {A} a.
Arguments Rejected {A} e.

(** ** JSON values, for the one body the client inspects dynamically *)

Inductive json : Type :=
| JNull
| JBool (b : bool)
| JNumber (n : Z)
| JString (s : jsstring)
| JArray (l : list json)
| JObject (o : list (jsstring * json)).

(** Own property of a parsed object; a repeated key keeps its last value. *)
Fixpoint own_prop (k : jsstring) (o : list (jsstring * json)) : option json :=
  match o with
  | [] => None
  | (k', v) :: o' =>
      match own_prop k o' with
      | Some w => Some w
      | None => if str_eqb k' k then Some v else None
      end
  end.

(** [data.k] for a name [k] that no prototype defines: [inl] is the
    [TypeError] of reading a property of [null], [inr None] is [undefined]. *)
Definition get_prop (data : json) (k : jsstring) : js_error + option json :=
  match data with
  | JNull => inl (mkError (lit "TypeError")
                    (lit "Cannot read properties of null (reading '" ++ k ++ lit "')"))
  | JObject o => inr (own_prop k o)
  | _ => inr None
  end.

(** [typeof v === "number" ? v : null]. *)
Definition number_or_null (v : option json) : option Z :=
  match v with
  | Some (JNumber n) => Some n
  | _ => None
  end.

(** ** The data the component holds *)

Inductive Role : Type := user | assistant | system.

#[global] Instance Role_eq_dec : EqDecision Role.
Proof. solve_decision. Defined.

(** [{file, chunk, excerpt}] of a chat answer. *)
Record Source := mkSource {
  src_file : jsstring;
  src_chunk : Z;
  src_excerpt : jsstring
}.

(** [{id, role, content, sources?, ts}]. *)
Record Message := mkMessage {
  msg_id : jsstring;
  role : Role;
  content : jsstring;
  sources : option (list Source);
  ts : Z
}.

(** [{file_name, chunks}] of the documents list. *)
Record Doc := mkDoc {
  file_name : jsstring;
  chunks : Z
}.

(** The [File] picked in the upload input. *)
Record File := mkFile {
  file_label : jsstring;
  file_bytes : list N
}.

(** The pair [uid()], [Date.now()] that stamps a new message. *)
Record Stamp := mkStamp { stamp_id : jsstring; stamp_ts : Z }.

(** ** HTTP requests *)

(** [{role, content}] of the chat request's history. *)
Record Turn := mkTurn { turn_role : Role; turn_content : jsstring }.

(** The object [send] serialises as the body of [POST /chat];
    [selected_files = None] is JSON [null]. *)
Record ChatBody := mkChatBody {
  message : jsstring;
  top_k : Z;
  history : list Turn;
  selected_files : option (list jsstring)
}.

Inductive Body : Type :=
| JsonBody (b : ChatBody)
| FormBody (f : File).

(** The URL below [API]; [DocumentUrl f] is
    [`${API}/documents/${encodeURIComponent(f)}`]. *)
Inductive Endpoint : Type :=
| HealthUrl
| DocumentsUrl
| UploadUrl
| DocumentUrl (fileName : jsstring)
| ClearUrl
| ChatUrl.

Inductive Method : Type := GET | POST | DELETE.

(** The [options] argument of [fetch]; [{}] is [no_options]. *)
Record Options := mkOptions {
  method : Method;
  headers : list (jsstring * jsstring);
  body : option Body
}.

Definition no_options : Options := mkOptions GET [] None.

(** One call of [fetch], with the delay after which its signal aborts it. *)
Record Request := mkRequest {
  url : Endpoint;
  options : Options;
  timeoutMs : N
}.

(** A response whose body parses to a [D]: [res.ok], [await res.text()],
    [await res.json()]. *)
Record Response (D : Type) := mkResponse {
  ok : bool;
  text : awaited jsstring;
  json_body : awaited D
}.
Arguments mkResponse {D} ok text json_body.
Arguments ok {D} r.
Arguments text {D} r.
Arguments json_body {D} r.

(** What the network does with a request that is never aborted; delays are
    in milliseconds from the call. *)
Inductive net_outcome (D : Type) : Type :=
| Responds (delay : N) (r : Response D)
| Fails (delay : N) (e : js_error)
| Stalls.
Arguments Responds {D} delay r.
Arguments Fails {D} delay e.
Arguments Stalls {D}.

(** [{file_name, chunks_indexed}] of a successful upload. *)
Record UploadData := mkUploadData {
  up_file_name : jsstring;
  up_chunks_indexed : Z
}.

(** [{file_name, chunks_deleted}] of a successful delete. *)
Record DeleteData := mkDeleteData {
  del_file_name : jsstring;
  del_chunks_deleted : Z
}.

(** [{chunks_deleted}] of a successful clear. *)
Record ClearData := mkClearData { clr_chunks_deleted : Z }.

(** [{files}] of the documents list; [None] is a missing or falsy [files]. *)
Record DocumentsData := mkDocumentsData { files : option (list Doc) }.

(** [{answer, sources}] of a chat answer; [None] is a missing field. *)
Record ChatData := mkChatData {
  answer : option jsstring;
  chat_sources : option (list Source)
}.

(** ** The state *)

Definition STORAGE_KEY : jsstring := lit "rag_chat_history_v1".
Definition SELECTED_KEY : jsstring := lit "rag_selected_files_v1".

(** An item of [localStorage], kept as the value its JSON text denotes. *)
Inductive Stored : Type :=
| StoredMessages (ms : list Message)
| StoredFiles (fs : list jsstring).

Record State := mkState {
  file : option File;
  uploadMsg : jsstring;
  uploading : bool;
  docs : list Doc;
  docsLoading : bool;
  selectedFiles : list jsstring;
  docSearch : jsstring;
  input : jsstring;
  loading : bool;
  backendOk : bool;
  chunksIndexed : option Z;
  messages : list Message;
  messagesRef : list Message;
  localStorage : gmap jsstring Stored;
  requests : list Request
}.

(** Field updates: [with_x v s] is [s] with cell [x] holding [v]. *)

Definition with_file (v : option File) (s : State) : State :=
  mkState v (uploadMsg s) (uploading s) (docs s) (docsLoading s)
    (selectedFiles s) (docSearch s) (input s) (loading s) (backendOk s)
    (chunksIndexed s) (messages s) (messagesRef s) (localStorage s)
    (requests s).

Definition with_uploadMsg (v : jsstring) (s : State) : State :=
  mkState (file s) v (uploading s) (docs s) (docsLoading s) (selectedFiles
    s) (docSearch s) (input s) (loading s) (backendOk s) (chunksIndexed s)
    (messages s) (messagesRef s) (localStorage s) (requests s).

Definition with_uploading (v : bool) (s : State) : State :=
  mkState (file s) (uploadMsg s) v (docs s) (docsLoading s) (selectedFiles
    s) (docSearch s) (input s) (loading s) (backendOk s) (chunksIndexed s)
    (messages s) (messagesRef s) (localStorage s) (requests s).

Definition with_docs (v : list Doc) (s : State) : State :=
  mkState (file s) (uploadMsg s) (uploading s) v (docsLoading s)
    (selectedFiles s) (docSearch s) (input s) (loading s) (backendOk s)
    (chunksIndexed s) (messages s) (messagesRef s) (localStorage s)
    (requests s).

Definition with_docsLoading (v : bool) (s : State) : State :=
  mkState (file s) (uploadMsg s) (uploading s) (docs s) v (selectedFiles s)
    (docSearch s) (input s) (loading s) (backendOk s) (chunksIndexed s)
    (messages s) (messagesRef s) (localStorage s) (requests s).

Definition with_selectedFiles (v : list jsstring) (s : State) : State :=
  mkState (file s) (uploadMsg s) (uploading s) (docs s) (docsLoading s) v
    (docSearch s) (input s) (loading s) (backendOk s) (chunksIndexed s)
    (messages s) (messagesRef s) (localStorage s) (requests s).

Definition with_docSearch (v : jsstring) (s : State) : State :=
  mkState (file s) (uploadMsg s) (uploading s) (docs s) (docsLoading s)
    (selectedFiles s) v (input s) (loading s) (backendOk s) (chunksIndexed
    s) (messages s) (messagesRef s) (localStorage s) (requests s).

Definition with_input (v : jsstring) (s : State) : State :=
  mkState (file s) (uploadMsg s) (uploading s) (docs s) (docsLoading s)
    (selectedFiles s) (docSearch s) v (loading s) (backendOk s)
    (chunksIndexed s) (messages s) (messagesRef s) (localStorage s)
    (requests s).

Definition with_loading (v : bool) (s : State) : State :=
  mkState (file s) (uploadMsg s) (uploading s) (docs s) (docsLoading s)
    (selectedFiles s) (docSearch s) (input s) v (backendOk s) (chunksIndexed
    s) (messages s) (messagesRef s) (localStorage s) (requests s).

Definition with_backendOk (v : bool) (s : State) : State :=
  mkState (file s) (uploadMsg s) (uploading s) (docs s) (docsLoading s)
    (selectedFiles s) (docSearch s) (input s) (loading s) v (chunksIndexed
    s) (messages s) (messagesRef s) (localStorage s) (requests s).

Definition with_chunksIndexed (v : option Z) (s : State) : State :=
  mkState (file s) (uploadMsg s) (uploading s) (docs s) (docsLoading s)
    (selectedFiles s) (docSearch s) (input s) (loading s) (backendOk s) v
    (messages s) (messagesRef s) (localStorage s) (requests s).

Definition with_messages (v : list Message) (s : State) : State :=
  mkState (file s) (uploadMsg s) (uploading s) (docs s) (docsLoading s)
    (selectedFiles s) (docSearch s) (input s) (loading s) (backendOk s)
    (chunksIndexed s) v (messagesRef s) (localStorage s) (requests s).

Definition with_messagesRef (v : list Message) (s : State) : State :=
  mkState (file s) (uploadMsg s) (uploading s) (docs s) (docsLoading s)
    (selectedFiles s) (docSearch s) (input s) (loading s) (backendOk s)
    (chunksIndexed s) (messages s) v (localStorage s) (requests s).

Definition with_localStorage (v : gmap jsstring Stored) (s : State) : State :=
  mkState (file s) (uploadMsg s) (uploading s) (docs s) (docsLoading s)
    (selectedFiles s) (docSearch s) (input s) (loading s) (backendOk s)
    (chunksIndexed s) (messages s) (messagesRef s) v (requests s).

Definition with_requests (v : list Request) (s : State) : State :=
  mkState (file s) (uploadMsg s) (uploading s) (docs s) (docsLoading s)
    (selectedFiles s) (docSearch s) (input s) (loading s) (backendOk s)
    (chunksIndexed s) (messages s) (messagesRef s) (localStorage s) v.

(** ** The handler monad: state and exceptions *)

Inductive outcome (A : Type) : Type :=
| Ok (a : A)
| Throw (e : js_error).
Arguments Ok {A} a.
Arguments Throw {A} e.

Definition M (A : Type) : Type := State -> outcome A * State.

Definition ret {A} (a : A) : M A := fun s => (Ok a, s).

Definition bind {A B} (m : M A) (k : A -> M B) : M B :=
  fun s =>
    match m s with
    | (Ok a, s') => k a s'
    | (Throw e, s') => (Throw e, s')
    end.

Definition throw {A} (e : js_error) : M A := fun s => (Throw e, s).

(** [try { m } catch (e) { h e }]. *)
Definition try_catch {A} (m : M A) (h : js_error -> M A) : M A :=
  fun s =>
    match m s with
    | (Ok a, s') => (Ok a, s')
    | (Throw e, s') => h e s'
    end.

(** [try { m } finally { f }]. *)
Definition try_finally {A} (m : M A) (f : M unit) : M A :=
  fun s =>
    match m s with
    | (o, s') =>
        match f s' with
        | (Ok _, s'') => (o, s'')
        | (Throw e, s'') => (Throw e, s'')
        end
    end.

Definition get : M State := fun s => (Ok s, s).

Definition modify (f : State -> State) : M unit := fun s => (Ok tt, f s).

(** [await p] for a promise that settles. *)
Definition await {A} (p : awaited A) : M A :=
  match p with
  | Fulfilled a => ret a
  | Rejected e => throw e
  end.

(** An expression that may throw. *)
Definition eval {A} (r : js_error + A) : M A :=
  match r with
  | inl e => throw e
  | inr a => ret a
  end.

Declare Scope js_scope.
Delimit Scope js_scope with js.
Notation "x <- c1 ;; c2" := (bind c1 (fun x => c2))
  (at level 100, c1 at next level, right associativity) : js_scope.
Notation "c1 ;; c2" := (bind c1 (fun _ => c2))
  (at level 100, right associativity) : js_scope.
#[local] Open Scope js_scope.

(** The final state and the result of running a handler. *)
Definition exec {A} (m : M A) (s : State) : State := snd (m s).
Definition result {A} (m : M A) (s : State) : outcome A := fst (m s).

(** ** The setters of [useState] *)

Definition setFile (v : option File) : M unit := modify (with_file v).
Definition setUploadMsg (v : jsstring) : M unit := modify (with_uploadMsg v).
Definition setUploading (v : bool) : M unit := modify (with_uploading v).
Definition setDocs (v : list Doc) : M unit := modify (with_docs v).
Definition setDocsLoading (v : bool) : M unit := modify (with_docsLoading v).
Definition setSelectedFiles (v : list jsstring) : M unit :=
  modify (with_selectedFiles v).
Definition setDocSearch (v : jsstring) : M unit := modify (with_docSearch v).
Definition setInput (v : jsstring) : M unit := modify (with_input v).
Definition setLoading (v : bool) : M unit := modify (with_loading v).
Definition setBackendOk (v : bool) : M unit := modify (with_backendOk v).
Definition setChunksIndexed (v : option Z) : M unit :=
  modify (with_chunksIndexed v).
Definition setMessages (v : list Message) : M unit := modify (with_messages v).

(** The updater form [setX((prev) => f(prev))]. *)
Definition setSelectedFilesWith (f : list jsstring -> list jsstring) : M unit :=
  modify (fun s => with_selectedFiles (f (selectedFiles s)) s).
Definition setMessagesWith (f : list Message -> list Message) : M unit :=
  modify (fun s => with_messages (f (messages s)) s).

(** [localStorage.removeItem(k)] and [localStorage.setItem(k, JSON.stringify(v))]. *)
Definition removeItem (k : jsstring) : M unit :=
  modify (fun s => with_localStorage (delete k (localStorage s)) s).
Definition setItem (k : jsstring) (v : Stored) : M unit :=
  modify (fun s => with_localStorage (<[k := v]> (localStorage s)) s).

(** The effects React runs after a render that changed [messages] and
    [selectedFiles]: the ref is synchronised and both cells are persisted. *)
Definition commit : M unit :=
  s <- get ;;
  modify (with_messagesRef (messages s)) ;;
  try_catch (setItem STORAGE_KEY (StoredMessages (messages s))) (fun _ => ret tt) ;;
  try_catch (setItem SELECTED_KEY (StoredFiles (selectedFiles s))) (fun _ => ret tt).

(** ** [fetchWithTimeout] *)

(** When and how the promise of a fetch aborted after [timeoutMs] settles. *)
Definition settle {D} (net : net_outcome D) (timeoutMs : N)
  : N * awaited (Response D) :=
  match net with
  | Responds d r =>
      if (d <? timeoutMs)%N then (d, Fulfilled r)
      else (timeoutMs, Rejected AbortError)
  | Fails d e =>
      if (d <? timeoutMs)%N then (d, Rejected e)
      else (timeoutMs, Rejected AbortError)
  | Stalls => (timeoutMs, Rejected AbortError)
  end.

(** [fetchWithTimeout(url, options = {}, timeoutMs = 15000)]: the request is
    issued with the abort signal of a timer of [timeoutMs]. *)
Definition fetchWithTimeout {D} (url : Endpoint) (options : option Options)
    (timeoutMs : option N) (net : net_outcome D) : M (awaited (Response D)) :=
  let options := default no_options options in
  let timeoutMs := default 15000%N timeoutMs in
  modify (fun s =>
    with_requests (requests s ++ [mkRequest url options timeoutMs]) s) ;;
  ret (snd (settle net timeoutMs)).

(** ** The environment of an asynchronous handler

    One answer for every call the handler may make to the outside. *)
Record Env (D : Type) := mkEnv {
  confirm : bool;                         (* [window.confirm(...)] *)
  stamp_first : Stamp;                    (* [send]: the user's message *)
  net : net_outcome D;                    (* the handler's own request *)
  stamp_not_ok : Stamp;                   (* the message built when [!res.ok] *)
  stamp_ok : Stamp;                       (* the message built on success *)
  stamp_catch : Stamp;                    (* the message built in [catch] *)
  net_docs : net_outcome DocumentsData;   (* [refreshDocs()] in the [try] body *)
  net_health : net_outcome json;          (* [refreshHealth()] in the [try] body *)
  net_health_catch : net_outcome json     (* [refreshHealth()] in [catch] *)
}.
Arguments mkEnv {D}.
Arguments confirm {D} e.
Arguments stamp_first {D} e.
Arguments net {D} e.
Arguments stamp_not_ok {D} e.
Arguments stamp_ok {D} e.
Arguments stamp_catch {D} e.
Arguments net_docs {D} e.
Arguments net_health {D} e.
Arguments net_health_catch {D} e.

(** [[...prev, {id: uid(), role, content, sources, ts: Date.now()}]]. *)
Definition push (st : Stamp) (r : Role) (c : jsstring)
    (srcs : option (list Source)) (prev : list Message) : list Message :=
  prev ++ [mkMessage (stamp_id st) r c srcs (stamp_ts st)].

(** [e?.name === "AbortError" ? timeout_text : String(e)]. *)
Definition error_text (timeout_text : jsstring) (e : js_error) : jsstring :=
  if isAbortError e then timeout_text else String_of_error e.

(** ** The handlers of [App] *)

Definition canSend (s : State) : bool :=
  (0 <? Z.of_nat (length (trim (input s)))) && negb (loading s) && backendOk s.

Definition refreshHealth (net : net_outcome json) : M unit :=
  try_catch
    (p <- fetchWithTimeout HealthUrl (Some no_options) (Some 5000%N) net ;;
     res <- await p ;;
     (if negb (ok res) then throw (Error (lit "health not ok")) else ret tt) ;;
     data <- await (json_body res) ;;
     setBackendOk true ;;
     v <- eval (get_prop data (lit "chunks_indexed")) ;;
     setChunksIndexed (number_or_null v))
    (fun _ =>
     setBackendOk false ;;
     setChunksIndexed None).

(** [files.some((d) => d.file_name === f)]. *)
Definition listed (files : list Doc) (f : jsstring) : bool :=
  existsb (fun d => str_eqb (file_name d) f) files.

Definition refreshDocs (net : net_outcome DocumentsData) : M unit :=
  setDocsLoading true ;;
  try_finally
    (try_catch
       (p <- fetchWithTimeout DocumentsUrl (Some no_options) (Some 10000%N) net ;;
        res <- await p ;;
        data <- await (json_body res) ;;
        let files := default [] (files data) in
        setDocs files ;;
        setSelectedFilesWith (fun prev => List.filter (listed files) prev))
       (fun _ => ret tt))
    (setDocsLoading false).

(** [prev.includes(fileName)]. *)
Definition includes (prev : list jsstring) (fileName : jsstring) : bool :=
  existsb (fun x => str_eqb x fileName) prev.

(** [prev.filter((x) => x !== fileName)]. *)
Definition without (fileName : jsstring) (prev : list jsstring) : list jsstring :=
  List.filter (fun x => negb (str_eqb x fileName)) prev.

(** The updater of [toggleSelected]. *)
Definition toggle (fileName : jsstring) (prev : list jsstring) : list jsstring :=
  if includes prev fileName then without fileName prev
  else prev ++ [fileName].

Definition toggleSelected (fileName : jsstring) : M unit :=
  setSelectedFilesWith (toggle fileName).

Definition clearSelection : M unit := setSelectedFiles [].

Definition selectAll : M unit :=
  render <- get ;;
  setSelectedFiles (map file_name (docs render)).

Definition selectOnly (fileName : jsstring) : M unit :=
  setSelectedFiles [fileName].

Definition uploadFile (env : Env UploadData) : M unit :=
  render <- get ;;
  match file render with
  | None => ret tt
  | Some f =>
    if uploading render then ret tt else
    setUploading true ;;
    setUploadMsg (lit "Uploading...") ;;
    try_finally
      (try_catch
         (p <- fetchWithTimeout UploadUrl
                (Some (mkOptions POST [] (Some (FormBody f))))
                (Some 60000%N) (net env) ;;
          res <- await p ;;
          if negb (ok res) then
            txt <- await (text res) ;;
            setUploadMsg (lit "Upload failed: " ++ txt)
          else
            data <- await (json_body res) ;;
            setUploadMsg
              (lit "Uploaded: " ++ up_file_name data ++ lit " (chunks: "
               ++ Z_to_jsstring (up_chunks_indexed data) ++ lit ")") ;;
            setMessagesWith
              (push (stamp_ok env) system
                 (lit "Document index" ++ [233%N] ++ lit ": "
                  ++ up_file_name data ++ lit " (chunks: "
                  ++ Z_to_jsstring (up_chunks_indexed data) ++ lit ")")
                 None) ;;
            refreshDocs (net_docs env) ;;
            refreshHealth (net_health env))
         (fun e =>
          let msg :=
            error_text
              (lit "Timeout upload (backend ne r" ++ [233%N] ++ lit "pond pas).") e in
          setUploadMsg (lit "Upload failed: " ++ msg) ;;
          refreshHealth (net_health_catch env)))
      (setUploading false)
  end.

Definition deleteDoc (fileName : jsstring) (env : Env DeleteData) : M unit :=
  if bool_decide (fileName = []) then ret tt else
  if negb (confirm env) then ret tt else
  try_catch
    (p <- fetchWithTimeout (DocumentUrl fileName)
           (Some (mkOptions DELETE [] None)) (Some 15000%N) (net env) ;;
     res <- await p ;;
     if negb (ok res) then
       txt <- await (text res) ;;
       setMessagesWith
         (push (stamp_not_ok env) system (lit "Erreur suppression: " ++ txt) None)
     else
       data <- await (json_body res) ;;
       setMessagesWith
         (push (stamp_ok env) system
            (lit "Document supprim" ++ [233%N] ++ lit ": " ++ del_file_name data
             ++ lit " (chunks supprim" ++ [233%N] ++ lit "s: "
             ++ Z_to_jsstring (del_chunks_deleted data) ++ lit ").")
            None) ;;
       setSelectedFilesWith (without fileName) ;;
       refreshDocs (net_docs env) ;;
       refreshHealth (net_health env))
    (fun e =>
     let msg :=
       error_text
         (lit "Timeout suppression (backend ne r" ++ [233%N] ++ lit "pond pas).") e in
     setMessagesWith
       (push (stamp_catch env) system (lit "Erreur suppression: " ++ msg) None) ;;
     refreshHealth (net_health_catch env)).

Definition clearIndex (env : Env ClearData) : M unit :=
  if negb (confirm env) then ret tt else
  try_catch
    (p <- fetchWithTimeout ClearUrl (Some (mkOptions POST [] None))
           (Some 20000%N) (net env) ;;
     res <- await p ;;
     if negb (ok res) then
       txt <- await (text res) ;;
       setMessagesWith
         (push (stamp_not_ok env) system (lit "Erreur clear index: " ++ txt) None)
     else
       data <- await (json_body res) ;;
       setMessagesWith
         (push (stamp_ok env) system
            (lit "Index vid" ++ [233%N] ++ lit " (chunks supprim" ++ [233%N]
             ++ lit "s: " ++ Z_to_jsstring (clr_chunks_deleted data) ++ lit ").")
            None) ;;
       setSelectedFiles [] ;;
       refreshDocs (net_docs env) ;;
       refreshHealth (net_health env))
    (fun e =>
     let msg :=
       error_text
         (lit "Timeout clear index (backend ne r" ++ [233%N] ++ lit "pond pas).") e in
     setMessagesWith
       (push (stamp_catch env) system (lit "Erreur clear index: " ++ msg) None) ;;
     refreshHealth (net_health_catch env)).

(** [m.role === "user" || m.role === "assistant"]. *)
Definition is_turn (m : Message) : bool :=
  bool_decide (role m = user) || bool_decide (role m = assistant).

(** The [history] field: filter, [slice(-12)], map to [{role, content}]. *)
Definition history_of (nextMessages : list Message) : list Turn :=
  map (fun m => mkTurn (role m) (content m))
      (slice (-12) (List.filter is_turn nextMessages)).

(** [selectedFiles.length > 0 ? selectedFiles : null]. *)
Definition selected_or_null (selectedFiles : list jsstring)
  : option (list jsstring) :=
  if 0 <? Z.of_nat (length selectedFiles) then Some selectedFiles else None.

Definition send (env : Env ChatData) : M unit :=
  render <- get ;;
  let q := trim (input render) in
  if bool_decide (q = []) || loading render || negb (backendOk render)
  then ret tt else
  let userMsg :=
    mkMessage (stamp_id (stamp_first env)) user q None
              (stamp_ts (stamp_first env)) in
  let prevMessages := messagesRef render in
  let nextMessages := prevMessages ++ [userMsg] in
  setMessages nextMessages ;;
  setInput [] ;;
  setLoading true ;;
  let history := history_of nextMessages in
  let selected_files := selected_or_null (selectedFiles render) in
  try_finally
    (try_catch
       (p <- fetchWithTimeout ChatUrl
              (Some (mkOptions POST
                       [(lit "Content-Type", lit "application/json")]
                       (Some (JsonBody
                                (mkChatBody q 5 history selected_files)))))
              (Some 30000%N) (net env) ;;
        res <- await p ;;
        if negb (ok res) then
          txt <- await (text res) ;;
          setMessagesWith
            (push (stamp_not_ok env) assistant (lit "Error: " ++ txt) (Some []))
        else
          data <- await (json_body res) ;;
          let a := match answer data with Some (c :: a) => c :: a | _ => [] end in
          let s := default [] (chat_sources data) in
          setMessagesWith (push (stamp_ok env) assistant a (Some s)) ;;
          refreshHealth (net_health env))
       (fun e =>
        let msg :=
          error_text (lit "Timeout: backend ne r" ++ [233%N] ++ lit "pond pas.") e in
        setMessagesWith
          (push (stamp_catch env) assistant (lit "Error: " ++ msg) (Some [])) ;;
        refreshHealth (net_health_catch env)))
    (setLoading false).

Definition resetChat : M unit :=
  setMessages [] ;;
  setInput [] ;;
  setUploadMsg [] ;;
  try_catch (removeItem STORAGE_KEY) (fun _ => ret tt).

(** ** The component as a state machine *)

(** The state of a first visit: the [useState] initialisers over an empty
    [localStorage]. *)
Definition initial_state : State :=
  mkState None [] false [] false [] [] [] false true None [] [] ∅ [].

Inductive Event : Type :=
| Mount (health : net_outcome json) (docs : net_outcome DocumentsData)
| Tick (health : net_outcome json)
| ClickRefreshDocs (docs : net_outcome DocumentsData)
| PickFile (f : option File)
| ClickUpload (env : Env UploadData)
| TypeSearch (v : jsstring)
| ClickSelectAll
| ClickSelectNone
| ClickCheckbox (fileName : jsstring)
| ClickOnly (fileName : jsstring)
| ClickDelete (fileName : jsstring) (env : Env DeleteData)
| ClickClear (env : Env ClearData)
| TypeInput (v : jsstring)
| PressEnter (env : Env ChatData)
| ClickSend (env : Env ChatData)
| ClickReset.

(** The handler an event runs, as wired in the JSX; a disabled button runs
    nothing. *)
Definition handler (e : Event) : M unit :=
  match e with
  | Mount health docs => refreshHealth health ;; refreshDocs docs
  | Tick health => refreshHealth health
  | ClickRefreshDocs docs =>
      render <- get ;;
      if docsLoading render then ret tt else refreshDocs docs
  | PickFile f => setFile f
  | ClickUpload env =>
      render <- get ;;
      if bool_decide (file render = None) || uploading render then ret tt
      else uploadFile env
  | TypeSearch v => setDocSearch v
  | ClickSelectAll =>
      render <- get ;;
      if bool_decide (docs render = []) then ret tt else selectAll
  | ClickSelectNone =>
      render <- get ;;
      if bool_decide (selectedFiles render = []) then ret tt else clearSelection
  | ClickCheckbox fileName => toggleSelected fileName
  | ClickOnly fileName => selectOnly fileName
  | ClickDelete fileName env => deleteDoc fileName env
  | ClickClear env => clearIndex env
  | TypeInput v => setInput v
  | PressEnter env => send env
  | ClickSend env =>
      render <- get ;;
      if canSend render then send env else ret tt
  | ClickReset => resetChat
  end.

(** An event is handled to completion, then React renders and runs the
    effects. *)
Definition step (e : Event) (s : State) : State :=
  exec (handler e ;; commit) s.

Definition run (es : list Event) (s : State) : State :=
  foldl (fun s e => step e s) s es.

(** The requests a computation issues when run from [s]. *)
Definition issued {A} (m : M A) (s : State) : list Request :=
  drop (length (requests s)) (requests (exec m s)).

(** The chat bodies among some requests. *)
Definition chat_bodies (rs : list Request) : list ChatBody :=
  omap (fun r => match body (options r) with
                 | Some (JsonBody b) => Some b
                 | _ => None
                 end) rs.

(** ** The requests of each operation *)

Definition health_request : Request := mkRequest HealthUrl no_options 5000.

Definition documents_request : Request := mkRequest DocumentsUrl no_options 10000.

Definition upload_request (f : File) : Request :=
  mkRequest UploadUrl (mkOptions POST [] (Some (FormBody f))) 60000.

Definition delete_request (fileName : jsstring) : Request :=
  mkRequest (DocumentUrl fileName) (mkOptions DELETE [] None) 15000.

Definition clear_request : Request :=
  mkRequest ClearUrl (mkOptions POST [] None) 20000.

Definition chat_request (b : ChatBody) : Request :=
  mkRequest ChatUrl
    (mkOptions POST [(lit "Content-Type", lit "application/json")]
       (Some (JsonBody b)))
    30000.

(** The timeout each operation passes to [fetchWithTimeout]. *)
Definition operation_timeout (u : Endpoint) : N :=
  match u with
  | HealthUrl => 5000
  | DocumentsUrl => 10000
  | UploadUrl => 60000
  | DocumentUrl _ => 15000
  | ClearUrl => 20000
  | ChatUrl => 30000
  end.

(** The network does not answer a request before its timer fires. *)
Definition timed_out {D} (net : net_outcome D) (timeoutMs : N) : Prop :=
  match net with
  | Responds d _ | Fails d _ => (timeoutMs <= d)%N
  | Stalls => True
  end.

(** The response arrives before the timer fires. *)
Definition arrives {D} (net : net_outcome D) (timeoutMs : N) (r : Response D)
  : Prop :=
  snd (settle net timeoutMs) = Fulfilled r.

(** The message [send] appends for the user. *)
Definition user_message (env : Env ChatData) (s : State) : Message :=
  mkMessage (stamp_id (stamp_first env)) user (trim (input s)) None
            (stamp_ts (stamp_first env)).

(** The body [send] posts from state [s]. *)
Definition chat_body (env : Env ChatData) (s : State) : ChatBody :=
  mkChatBody (trim (input s)) 5
    (history_of (messagesRef s ++ [user_message env s]))
    (selected_or_null (selectedFiles s)).

(** ** Names for the statements *)

(** What [refreshDocs] stores when its request is answered in time and the
    body parses: [None] otherwise. *)
Definition fetched_files (net : net_outcome DocumentsData) : option (list Doc) :=
  match snd (settle net 10000) with
  | Fulfilled r =>
      match json_body r with
      | Fulfilled data => Some (default [] (files data))
      | Rejected _ => None
      end
  | Rejected _ => None
  end.

(** A logged request carries the timeout of its operation. *)
Definition timed (r : Request) : Prop :=
  timeoutMs r = operation_timeout (url r).

(** Some error is on screen: the backend is marked down, the upload hint
    reports a failure, or the last message reports one. *)
Definition error_shown (s : State) : Prop :=
  backendOk s = false ∨
  (∃ txt, uploadMsg s = lit "Upload failed: " ++ txt) ∨
  (∃ m txt, last (messages s) = Some m ∧
            (content m = lit "Error: " ++ txt ∨
             content m = lit "Erreur suppression: " ++ txt ∨
             content m = lit "Erreur clear index: " ++ txt)).

(** The texts the handlers show for a timeout. *)
Definition upload_timeout_text : jsstring :=
  lit "Upload failed: " ++ lit "Timeout upload (backend ne r" ++ [233%N]
  ++ lit "pond pas).".

Definition delete_timeout_text : jsstring :=
  lit "Erreur suppression: " ++ lit "Timeout suppression (backend ne r"
  ++ [233%N] ++ lit "pond pas).".

Definition clear_timeout_text : jsstring :=
  lit "Erreur clear index: " ++ lit "Timeout clear index (backend ne r"
  ++ [233%N] ++ lit "pond pas).".

Definition chat_timeout_text : jsstring :=
  lit "Error: " ++ lit "Timeout: backend ne r" ++ [233%N] ++ lit "pond pas.".

(** ** Sample inputs *)

(** A state in which the user has typed a question and ticked one document,
    and an environment in which nothing answers. *)
Definition demo_stamp : Stamp := mkStamp (lit "1a2b") 1700000000000.

Definition silent {D} : Env D :=
  mkEnv true demo_stamp Stalls demo_stamp demo_stamp demo_stamp
        Stalls Stalls Stalls.

Definition demo_state : State :=
  with_input (lit "  capital of France? ")
    (with_selectedFiles [lit "geo.txt"] initial_state).

Definition geo_docs : net_outcome DocumentsData :=
  Responds 20 (mkResponse true (Fulfilled [])
                 (Fulfilled (mkDocumentsData (Some [mkDoc (lit "geo.txt") 1])))).

Definition geo_deleted : Env DeleteData :=
  mkEnv true demo_stamp
    (Responds 20 (mkResponse true (Fulfilled [])
                    (Fulfilled (mkDeleteData (lit "geo.txt") 1))))
    demo_stamp demo_stamp demo_stamp Stalls Stalls Stalls.

Definition index_cleared : Env ClearData :=
  mkEnv true demo_stamp
    (Responds 20 (mkResponse true (Fulfilled []) (Fulfilled (mkClearData 1))))
    demo_stamp demo_stamp demo_stamp Stalls Stalls Stalls.

Definition health_reply (data : json) : net_outcome json :=
  Responds 20 (mkResponse true (Fulfilled []) (Fulfilled data)).

(** ** What the component derives from its state *)

(** [onKeyDown(e)], from [e.key] and [e.shiftKey]. *)
Definition onKeyDown (key : jsstring) (shiftKey : bool) (env : Env ChatData)
  : M unit :=
  if str_eqb key (lit "Enter") && negb shiftKey then send env else ret tt.

Definition scopeLabel (s : State) : jsstring :=
  if (Z.of_nat (length (selectedFiles s)) =? 0)
  then lit "Recherche: tous les documents"
  else lit "Recherche: " ++ Z_to_jsstring (Z.of_nat (length (selectedFiles s)))
       ++ lit " doc(s) s" ++ [233%N] ++ lit "lectionn" ++ [233%N] ++ lit "(s)".

Definition healthLabel (s : State) : jsstring :=
  if backendOk s
  then lit "Backend: OK"
       ++ match chunksIndexed s with
          | Some n => lit " " ++ [8226%N] ++ lit " chunks: " ++ Z_to_jsstring n
          | None => []
          end
  else lit "Backend: DOWN".

(** [s.startsWith(q)] and [s.includes(q)] on code units. *)
Fixpoint starts_with (q s : jsstring) : bool :=
  match q, s with
  | [], _ => true
  | a :: q', b :: s' => bool_decide (a = b) && starts_with q' s'
  | _ :: _, [] => false
  end.

Fixpoint str_includes (s q : jsstring) : bool :=
  starts_with q s ||
  match s with
  | [] => false
  | _ :: s' => str_includes s' q
  end.

Section Search.

(** [String.prototype.toLowerCase], left open. *)
Variable toLowerCase : jsstring -> jsstring.

Definition filteredDocs (s : State) : list Doc :=
  let q := toLowerCase (trim (docSearch s)) in
  if bool_decide (q = []) then docs s
  else List.filter (fun d => str_includes (toLowerCase (file_name d)) q) (docs s).

End Search.

(** A chat request as [send] builds it. *)
Definition well_formed (r : Request) : Prop :=
  match body (options r) with
  | Some (JsonBody b) =>
      url r = ChatUrl ∧ method (options r) = POST ∧ timeoutMs r = 30000%N ∧
      message b ≠ [] ∧ trim (message b) = message b ∧ top_k b = 5 ∧
      selected_files b ≠ Some [] ∧ (length (history b) <= 12)%nat ∧
      last (history b) = Some (mkTurn user (message b))
  | _ => url r ≠ ChatUrl
  end.

(** Busy flags all down. *)
Definition idle (s : State) : Prop :=
  loading s = false ∧ uploading s = false ∧ docsLoading s = false.

(** The ref and the persisted items agree with the state. *)
Definition synced (s : State) : Prop :=
  messagesRef s = messages s ∧
  localStorage s !! STORAGE_KEY = Some (StoredMessages (messages s)) ∧
  localStorage s !! SELECTED_KEY = Some (StoredFiles (selectedFiles s)).

(** Sample answers of the server. *)
Definition server_error {D} : net_outcome D :=
  Responds 20 (mkResponse false (Fulfilled (lit "Internal Server Error"))
                 (Rejected (mkError (lit "SyntaxError") (lit "Unexpected token")))).

Definition error_body : net_outcome DocumentsData :=
  Responds 20 (mkResponse false (Fulfilled (lit "{}"))
                 (Fulfilled (mkDocumentsData None))).

Definition offline {D} : net_outcome D :=
  Fails 3 (mkError (lit "TypeError") (lit "Failed to fetch")).

Definition with_net {D} (n : net_outcome D) : Env D :=
  mkEnv true demo_stamp n demo_stamp demo_stamp demo_stamp Stalls Stalls Stalls.

Definition paris : ChatData :=
  mkChatData (Some (lit "Paris."))
    (Some [mkSource (lit "geo.txt") 0 (lit "Paris is the capital of France.")]).

Definition answered {D} (data : D) : net_outcome D :=
  Responds 20 (mkResponse true (Fulfilled []) (Fulfilled data)).

Definition picked : File := mkFile (lit "geo.txt") [80; 97; 114; 105; 115]%N.

(** * The index behind the HTTP operations *)

Module VectorIndex.

(** Modelled from the spec: the backend (the Chunker, the Vector Index and
    the ingestion path of the RAG Orchestrator, spec sections 3, 4.1, 4.2 and
    4.4) is not among the sources. A document is the set of chunks sharing its
    [file_name]; chunk ids come from a counter, so they are never reused. The
    spec does not place the duplicate check among the steps of [ingest]; it is
    made first here, the one position at which every upload of an existing
    name is answered with [DuplicateDocumentError], as section 8 requires of a
    second upload. *)
Record Chunk := mkChunk {
  chunk_id : nat;
  chunk_file_name : jsstring;
  chunk_index : nat;
  chunk_text : jsstring;
  embedding : list Z
}.

Record Index := mkIndex {
  store : list Chunk;
  next_id : nat
}.

Definition empty : Index := mkIndex [] 0.

Inductive IndexError : Type :=
| EmptyInputError
| DuplicateDocumentError
| EmbeddingError.

Definition of_file (f : jsstring) (c : Chunk) : bool :=
  str_eqb (chunk_file_name c) f.

(** The chunks stored for [f]. *)
Definition chunk_count (f : jsstring) (idx : Index) : nat :=
  length (List.filter (of_file f) (store idx)).

(** [count()]. *)
Definition count (idx : Index) : nat := length (store idx).

(** Spans of [size] units, each starting [step] units after the previous one;
    the last span takes what is left. *)
Fixpoint spans (fuel size step : nat) (l : jsstring) : list jsstring :=
  match fuel with
  | O => []
  | S fuel' =>
      if (length l <=? size)%nat then [l]
      else take size l :: spans fuel' size step (drop step l)
  end.

(** [chunk(text, target_size, overlap)]. *)
Definition chunk (text : jsstring) (target_size overlap : nat)
  : IndexError + list jsstring :=
  if bool_decide (trim text = []) then inl EmptyInputError
  else inr (spans (length text) target_size (target_size - overlap) text).

(** [delete_document(file_name)]: the number of chunks removed and the index
    without them. *)
Definition delete_document (f : jsstring) (idx : Index) : nat * Index :=
  (chunk_count f idx,
   mkIndex (List.filter (fun c => negb (of_file f c)) (store idx)) (next_id idx)).

(** [clear()]. *)
Definition clear (idx : Index) : nat * Index :=
  (count idx, mkIndex [] (next_id idx)).

(** A stub provider: every text has the same vector. *)
Definition stub_embed (t : jsstring) : option (list Z) := Some [1; 0; 0].

Section Ingestion.

(** The Embedding Provider, [None] when it fails, and the Chunker's settings. *)
Variable embed : jsstring -> option (list Z).
Variable target_size overlap : nat.

(** All the vectors, or [None] when one embedding fails. *)
Fixpoint embed_all (texts : list jsstring) : option (list (jsstring * list Z)) :=
  match texts with
  | [] => Some []
  | t :: texts' =>
      match embed t, embed_all texts' with
      | Some v, Some rest => Some ((t, v) :: rest)
      | _, _ => None
      end
  end.

(** The chunks of one document, numbered from [i] with ids from [n]. *)
Fixpoint number (f : jsstring) (n i : nat) (cs : list (jsstring * list Z))
  : list Chunk :=
  match cs with
  | [] => []
  | (t, v) :: cs' => mkChunk n f i t v :: number f (S n) (S i) cs'
  end.

(** [insert(document, chunks)]: all the chunks are committed at once. *)
Definition insert (f : jsstring) (cs : list (jsstring * list Z)) (idx : Index)
  : nat * Index :=
  (length cs,
   mkIndex (store idx ++ number f (next_id idx) 0 cs) (next_id idx + length cs)).

(** [ingest(file_name, raw_text)]: the number of chunks committed, or the
    error and the index as it was. *)
Definition ingest (f : jsstring) (raw_text : jsstring) (idx : Index)
  : (IndexError + nat) * Index :=
  if negb (chunk_count f idx =? 0)%nat then (inl DuplicateDocumentError, idx)
  else
    match chunk raw_text target_size overlap with
    | inl e => (inl e, idx)
    | inr texts =>
        match embed_all texts with
        | None => (inl EmbeddingError, idx)
        | Some cs =>
            match insert f cs idx with
            | (n, idx') => (inr n, idx')
            end
        end
    end.

Lemma spans_nonempty (fuel size step : nat) (l : jsstring) :
  fuel ≠ 0%nat → spans fuel size step l ≠ [].
Proof.
  destruct fuel; [done|]. intros _. cbn. by destruct (length l <=? size)%nat.
Qed.

Lemma chunk_nonempty (text : jsstring) (texts : list jsstring) :
  chunk text target_size overlap = inr texts → texts ≠ [].
Proof.
  unfold chunk. case_bool_decide as Hblank; [done|].
  intros [= <-]. apply spans_nonempty.
  destruct text; [|done]. by destruct Hblank.
Qed.

Lemma embed_all_length (texts : list jsstring) cs :
  embed_all texts = Some cs → length cs = length texts.
Proof.
  revert cs. induction texts as [|t texts IH]; intros cs; cbn.
  - by intros [= <-].
  - destruct (embed t); [|done]. destruct (embed_all texts); [|done].
    intros [= <-]. cbn. f_equal. by apply IH.
Qed.

Lemma number_of_file (f : jsstring) (n i : nat) cs :
  List.filter (of_file f) (number f n i cs) = number f n i cs.
Proof.
  revert n i. induction cs as [|[t v] cs IH]; intros n i; [done|].
  cbn. unfold of_file at 1, str_eqb. cbn.
  rewrite bool_decide_eq_true_2 by done. f_equal. apply IH.
Qed.

Lemma number_length (f : jsstring) (n i : nat) cs :
  length (number f n i cs) = length cs.
Proof.
  revert n i. induction cs as [|[t v] cs IH]; intros n i; [done|].
  cbn. f_equal. apply IH.
Qed.

Lemma ingest_committed (f raw_text : jsstring) (idx idx' : Index) (n : nat) :
  ingest f raw_text idx = (inr n, idx') →
  chunk_count f idx = 0%nat ∧ chunk_count f idx' = n ∧ (0 < n)%nat.
Proof.
  unfold ingest. destruct (chunk_count f idx =? 0)%nat eqn:Hfree; [|done].
  apply Nat.eqb_eq in Hfree. cbn.
  destruct (chunk raw_text target_size overlap) as [e|texts] eqn:Hchunk; [done|].
  destruct (embed_all texts) as [cs|] eqn:Hembed; [|done].
  intros [= <- <-]. split; [done|].
  unfold chunk_count in *. cbn. rewrite List.filter_app, length_app, Hfree.
  rewrite number_of_file, number_length. split; [done|].
  rewrite (embed_all_length _ _ Hembed).
  apply chunk_nonempty in Hchunk. destruct texts; [done|cbn; lia].
Qed.

(** C6: an upload under a name the index already holds fails with
    [DuplicateDocumentError] and leaves the index as it was; so the second of
    two uploads of a name is rejected, and the name keeps exactly the chunks
    the first upload committed. *)
Theorem duplicate_upload_rejected :
  (∀ (f raw_text : jsstring) (idx : Index),
     chunk_count f idx ≠ 0%nat →
     ingest f raw_text idx = (inl DuplicateDocumentError, idx)) ∧
  (∀ (f first second : jsstring) (idx idx1 : Index) (n : nat),
     ingest f first idx = (inr n, idx1) →
     ingest f second idx1 = (inl DuplicateDocumentError, idx1) ∧
     chunk_count f (snd (ingest f second idx1)) = n ∧
     (0 < n)%nat).
Proof.
  assert (Hdup : ∀ f raw_text idx, chunk_count f idx ≠ 0%nat →
                 ingest f raw_text idx = (inl DuplicateDocumentError, idx)).
  { intros f raw_text idx Hf. unfold ingest.
    apply Nat.eqb_neq in Hf. by rewrite Hf. }
  split; [exact Hdup|].
  intros f first second idx idx1 n Hfirst.
  destruct (ingest_committed _ _ _ _ _ Hfirst) as (_ & Hn & Hpos).
  rewrite Hdup by lia. done.
Qed.


End Ingestion.

Lemma duplicate_upload_rejected_witness :
  ingest stub_embed 500 50 (lit "x") (lit "again")
    (snd (ingest stub_embed 500 50 (lit "x")
            (lit "Paris is the capital of France.") empty))
  = (inl DuplicateDocumentError,
     snd (ingest stub_embed 500 50 (lit "x")
            (lit "Paris is the capital of France.") empty)) ∧
  chunk_count (lit "x")
    (snd (ingest stub_embed 500 50 (lit "x") (lit "again")
            (snd (ingest stub_embed 500 50 (lit "x")
                    (lit "Paris is the capital of France.") empty)))) = 1%nat ∧
  (0 < 1)%nat.
Proof.
  apply (proj2 (duplicate_upload_rejected stub_embed 500 50)
           (lit "x") (lit "Paris is the capital of France.") (lit "again") empty).
  reflexivity.
Defined.


End VectorIndex.

(** * Properties *)

(** ** Running handlers *)

Ltac unfold_js :=
  unfold bind, try_catch, try_finally, ret, throw, get, modify, await, eval,
    fetchWithTimeout, settle, setFile, setUploadMsg, setUploading, setDocs,
    setDocsLoading, setSelectedFiles, setSelectedFilesWith, setDocSearch,
    setInput, setLoading, setBackendOk, setChunksIndexed, setMessages,
    setMessagesWith, removeItem, setItem in *.

Ltac js_step :=
  cbn -[N.ltb lit Z_to_jsstring trim refreshHealth refreshDocs history_of
        selected_or_null error_text push without] in *.

Ltac js_run := repeat (js_step; unfold_js).

Lemma refreshHealth_run (net : net_outcome json) (s : State) :
  ∃ b c, refreshHealth net s =
    (Ok tt, with_chunksIndexed c (with_backendOk b
              (with_requests (requests s ++ [health_request]) s))).
Proof.
  unfold refreshHealth.
  destruct net as [d [o t [j|e]] | d e | ]; js_run;
    try destruct (d <? 5000)%N; try destruct o; js_run;
    try destruct (get_prop j (lit "chunks_indexed")); js_run;
    eexists _, _; reflexivity.
Qed.

Lemma refreshDocs_run (net : net_outcome DocumentsData) (s : State) :
  refreshDocs net s =
    (Ok tt,
     match fetched_files net with
     | Some fs =>
         with_docsLoading false
           (with_selectedFiles (List.filter (listed fs) (selectedFiles s))
              (with_docs fs
                 (with_requests (requests s ++ [documents_request]) s)))
     | None =>
         with_docsLoading false
           (with_requests (requests s ++ [documents_request]) s)
     end).
Proof.
  unfold refreshDocs, fetched_files.
  destruct net as [d [o t [j|e]] | d e | ]; js_run;
    try destruct (d <? 10000)%N; js_run; reflexivity.
Qed.

Lemma canSend_guard (s : State) :
  canSend s =
  negb (bool_decide (trim (input s) = []) || loading s || negb (backendOk s)).
Proof.
  unfold canSend. destruct (trim (input s)); cbn; [done|].
  by destruct (loading s), (backendOk s).
Qed.

Lemma send_blocked (env : Env ChatData) (s : State) :
  canSend s = false → send env s = (Ok tt, s).
Proof.
  rewrite canSend_guard. intros H%negb_false_iff.
  unfold send. js_run. by rewrite H.
Qed.

Lemma send_passes (env : Env ChatData) (s : State) :
  canSend s = true →
  ∃ reply b c rest,
    send env s =
      (Ok tt,
       mkState (file s) (uploadMsg s) (uploading s) (docs s) (docsLoading s)
         (selectedFiles s) (docSearch s) [] false b c
         ((messagesRef s ++ [user_message env s]) ++ [reply]) (messagesRef s)
         (localStorage s)
         ((requests s ++ [chat_request (chat_body env s)]) ++ rest)) ∧
    role reply = assistant ∧
    (rest = [] ∧ b = backendOk s ∧ c = chunksIndexed s ∨ rest = [health_request]).
Proof.
  rewrite canSend_guard. intros H%negb_true_iff.
  unfold send. js_run. rewrite H.
  destruct (net env) as [d [o t j] | d e | ]; js_run;
    try destruct (d <? 30000)%N; try destruct o; js_run;
    try destruct t; try destruct j; js_run;
    try match goal with
    | |- context [refreshHealth ?n ?x] =>
        destruct (refreshHealth_run n x) as (b & c & ->)
    end; js_run; unfold push.
  all: try (eexists _, b, c, [health_request]; split; [reflexivity|];
            split; [reflexivity|by right]).
  all: eexists _, _, _, []; split; [rewrite app_nil_r; reflexivity|];
       split; [reflexivity|by left].
Qed.

(** ** [send]: the chat request *)

Lemma issued_app {A} (m : M A) (s : State) (rs : list Request) :
  requests (exec m s) = requests s ++ rs → issued m s = rs.
Proof. unfold issued. intros ->. apply drop_app_length. Qed.

Lemma send_issued (env : Env ChatData) (s : State) :
  ∃ rest,
    issued (send env) s =
      (if canSend s then chat_request (chat_body env s) :: rest else []) ∧
    chat_bodies rest = [].
Proof.
  destruct (canSend s) eqn:Hc.
  - destruct (send_passes env s Hc) as (reply & b & c & rest & Heq & _ & Hrest).
    exists rest. split.
    + apply issued_app. unfold exec. rewrite Heq. cbn.
      by rewrite <- app_assoc.
    + by destruct Hrest as [(-> & _) | ->].
  - exists []. split; [|done].
    apply issued_app. unfold exec. rewrite (send_blocked env s Hc). cbn.
    by rewrite app_nil_r.
Qed.

Lemma send_chat_bodies (env : Env ChatData) (s : State) :
  chat_bodies (issued (send env) s) =
    if canSend s then [chat_body env s] else [].
Proof.
  destruct (send_issued env s) as (rest & -> & Hrest).
  destruct (canSend s); [|done]. unfold chat_bodies in *. cbn. by rewrite Hrest.
Qed.

Lemma slice_last {A} (n : nat) (l : list A) :
  slice (- Z.of_nat (S n)) l = drop (length l - S n) l.
Proof.
  unfold slice.
  replace (- Z.of_nat (S n) <? 0) with true by (symmetry; apply Z.ltb_lt; lia).
  f_equal. lia.
Qed.

Lemma history_of_spec (ms : list Message) :
  ∃ older kept,
    List.filter is_turn ms = older ++ kept ∧
    history_of ms = map (fun m => mkTurn (role m) (content m)) kept ∧
    length kept = Nat.min 12 (length (List.filter is_turn ms)).
Proof.
  unfold history_of. change (-12) with (- Z.of_nat 12). rewrite slice_last.
  set (l := List.filter is_turn ms).
  exists (take (length l - 12) l), (drop (length l - 12) l).
  split; [by rewrite take_drop|]. split; [done|].
  rewrite length_drop. lia.
Qed.

Lemma is_turn_role (m : Message) :
  is_turn m = true ↔ role m = user ∨ role m = assistant.
Proof.
  unfold is_turn. destruct (role m); cbn; split; intros H; try done;
    (by left) || (by right) || (by destruct H).
Qed.

(** C1: every chat request [send] issues carries [selected_files = null] when
    the selection is empty and the selection itself otherwise; it never
    carries an empty, non-null list. *)
Theorem send_selected_files (env : Env ChatData) (s : State) (b : ChatBody) :
  b ∈ chat_bodies (issued (send env) s) →
  (selectedFiles s = [] → selected_files b = None) ∧
  (selectedFiles s ≠ [] → selected_files b = Some (selectedFiles s)) ∧
  selected_files b ≠ Some [].
Proof.
  rewrite send_chat_bodies. destruct (canSend s); [|by intros ?%elem_of_nil].
  intros ->%list_elem_of_singleton. cbn. unfold selected_or_null.
  destruct (selectedFiles s); cbn; naive_solver.
Qed.

Lemma send_selected_files_witness :
  selected_files (chat_body silent demo_state) = Some [lit "geo.txt"].
Proof.
  apply (send_selected_files silent demo_state (chat_body silent demo_state));
    [|discriminate].
  rewrite send_chat_bodies. vm_compute. left.
Defined.

(** C2: the history of every chat request [send] issues holds only user and
    assistant turns, is the tail of the filtered message list in its order
    (the new user message last), and has at most 12 entries. *)
Theorem send_history (env : Env ChatData) (s : State) (b : ChatBody) :
  b ∈ chat_bodies (issued (send env) s) →
  Forall (fun t => turn_role t = user ∨ turn_role t = assistant) (history b) ∧
  (∃ older,
     map (fun m => mkTurn (role m) (content m))
         (List.filter is_turn (messagesRef s ++ [user_message env s]))
     = older ++ history b) ∧
  last (history b) = Some (mkTurn user (trim (input s))) ∧
  (length (history b) <= 12)%nat.
Proof.
  rewrite send_chat_bodies. destruct (canSend s); [|by intros ?%elem_of_nil].
  intros ->%list_elem_of_singleton. cbn.
  set (ms := messagesRef s ++ [user_message env s]).
  destruct (history_of_spec ms) as (older & kept & Hsplit & -> & Hlen).
  assert (Hall : Forall (fun m => is_turn m = true) (older ++ kept)).
  { rewrite <- Hsplit. apply Forall_forall. intros m Hm.
    apply list_elem_of_In, filter_In in Hm. tauto. }
  assert (Hfilter : List.filter is_turn ms =
                    List.filter is_turn (messagesRef s) ++ [user_message env s]).
  { unfold ms. by rewrite List.filter_app. }
  split; [|split; [|split]].
  - apply Forall_app in Hall as [_ Hkept]. apply Forall_map.
    eapply Forall_impl; [exact Hkept|]. intros m Hm. cbn. by apply is_turn_role.
  - exists (map (fun m => mkTurn (role m) (content m)) older).
    by rewrite Hsplit, map_app.
  - rewrite Hfilter in Hsplit, Hlen. rewrite length_app in Hlen.
    change (length [user_message env s]) with 1%nat in Hlen.
    assert (Hne : kept ≠ []).
    { intros ->. change (length (@nil Message)) with 0%nat in Hlen. lia. }
    destruct (exists_last Hne) as (kept' & m & ->).
    rewrite app_assoc in Hsplit. apply app_inj_tail in Hsplit as [_ <-].
    rewrite map_app. simpl. by rewrite last_snoc.
  - rewrite length_map. lia.
Qed.

Lemma send_history_witness :
  let b := chat_body silent demo_state in
  Forall (fun t => turn_role t = user ∨ turn_role t = assistant) (history b) ∧
  (∃ older,
     map (fun m => mkTurn (role m) (content m))
         (List.filter is_turn
            (messagesRef demo_state ++ [user_message silent demo_state]))
     = older ++ history b) ∧
  last (history b) = Some (mkTurn user (trim (input demo_state))) ∧
  (length (history b) <= 12)%nat.
Proof.
  apply (send_history silent demo_state).
  rewrite send_chat_bodies. vm_compute. left.
Defined.

(** C3: [send] issues nothing and leaves the messages alone when the trimmed
    input is empty, a request is in flight or the backend is down; otherwise
    it posts the non-empty trimmed input with [top_k = 5], within (0, 20]. *)
Theorem send_guard (env : Env ChatData) (s : State) :
  (trim (input s) = [] ∨ loading s = true ∨ backendOk s = false →
   issued (send env) s = [] ∧
   messages (exec (send env) s) = messages s ∧
   send env s = (Ok tt, s)) ∧
  (trim (input s) ≠ [] → loading s = false → backendOk s = true →
   ∃ b rest,
     issued (send env) s = chat_request b :: rest ∧
     chat_bodies rest = [] ∧
     message b = trim (input s) ∧
     message b ≠ [] ∧
     top_k b = 5 ∧
     0 < top_k b <= 20).
Proof.
  destruct (send_issued env s) as (rest & Hiss & Hrest).
  split.
  - intros Hblock.
    assert (Hc : canSend s = false).
    { rewrite canSend_guard. apply negb_false_iff.
      destruct Hblock as [-> | [-> | ->]]; cbn; [done| |];
        by rewrite ?orb_true_r. }
    rewrite Hc in Hiss. unfold exec. rewrite (send_blocked env s Hc). done.
  - intros Hq Hl Hb.
    assert (Hc : canSend s = true).
    { rewrite canSend_guard, Hl, Hb. by rewrite bool_decide_eq_false_2. }
    rewrite Hc in Hiss. exists (chat_body env s), rest. cbn. repeat split; done || lia.
Qed.

Lemma send_guard_witness :
  ∃ b rest,
    issued (send silent) demo_state = chat_request b :: rest ∧
    chat_bodies rest = [] ∧
    message b = lit "capital of France?" ∧
    message b ≠ [] ∧ top_k b = 5 ∧ 0 < top_k b <= 20.
Proof.
  apply (proj2 (send_guard silent demo_state)); vm_compute; congruence.
Defined.

(** ** The selection *)

Lemma includes_elem (l : list jsstring) (f : jsstring) :
  includes l f = true ↔ f ∈ l.
Proof.
  unfold includes. rewrite existsb_exists. split.
  - intros (x & Hx & Heq). apply bool_decide_eq_true in Heq as ->.
    by apply list_elem_of_In.
  - intros Hf. exists f. split; [by apply list_elem_of_In|].
    by apply bool_decide_eq_true.
Qed.

Lemma elem_of_without (x f : jsstring) (l : list jsstring) :
  x ∈ without f l ↔ x ∈ l ∧ x ≠ f.
Proof.
  unfold without. rewrite list_elem_of_In, filter_In, <- list_elem_of_In.
  unfold str_eqb. rewrite negb_true_iff, bool_decide_eq_false. done.
Qed.

Lemma without_absent (f : jsstring) (l : list jsstring) :
  f ∉ l → without f l = l.
Proof.
  intros Hf. unfold without. induction l as [|x l IH]; [done|].
  apply not_elem_of_cons in Hf as [Hne Hl]. simpl.
  replace (str_eqb x f) with false
    by (symmetry; apply bool_decide_eq_false; congruence).
  simpl. f_equal. by apply IH.
Qed.

Lemma without_app (f : jsstring) (l k : list jsstring) :
  without f (l ++ k) = without f l ++ without f k.
Proof. apply List.filter_app. Qed.

Lemma listed_elem (fs : list Doc) (f : jsstring) :
  listed fs f = true ↔ ∃ d, d ∈ fs ∧ file_name d = f.
Proof.
  unfold listed. rewrite existsb_exists. split.
  - intros (d & Hd & Heq). exists d. split; [by apply list_elem_of_In|].
    by apply bool_decide_eq_true in Heq.
  - intros (d & Hd & Heq). exists d. split; [by apply list_elem_of_In|].
    by apply bool_decide_eq_true.
Qed.

Lemma toggle_twice (f : jsstring) (l : list jsstring) :
  toggle f (toggle f l) = if includes l f then without f l ++ [f] else l.
Proof.
  unfold toggle at 2. destruct (includes l f) eqn:Hin.
  - unfold toggle.
    replace (includes (without f l) f) with false; [done|].
    symmetry. apply not_true_iff_false. rewrite includes_elem, elem_of_without.
    tauto.
  - unfold toggle.
    replace (includes (l ++ [f]) f) with true
      by (symmetry; apply includes_elem, elem_of_app; right; left).
    apply not_true_iff_false in Hin. rewrite includes_elem in Hin.
    rewrite without_app, (without_absent f l Hin). unfold without. simpl.
    replace (str_eqb f f) with true
      by (symmetry; by apply bool_decide_eq_true).
    simpl. by rewrite app_nil_r.
Qed.

(** C9: toggling the same file name twice gives back a selection with the
    same members; the list itself is unchanged when the name was absent, and
    the name ends up last when it was present. *)
Theorem toggleSelected_twice (f : jsstring) (s : State) :
  let s2 := exec (toggleSelected f ;; toggleSelected f) s in
  (∀ x, x ∈ selectedFiles s2 ↔ x ∈ selectedFiles s) ∧
  (f ∉ selectedFiles s → selectedFiles s2 = selectedFiles s) ∧
  (f ∈ selectedFiles s →
   selectedFiles s2 = without f (selectedFiles s) ++ [f]).
Proof.
  cbn. rewrite toggle_twice.
  destruct (includes (selectedFiles s) f) eqn:Hin.
  - apply includes_elem in Hin. split; [|split]; [|done|done].
    intros x. rewrite elem_of_app, elem_of_without, list_elem_of_singleton.
    destruct (decide (x = f)) as [->|]; tauto.
  - apply not_true_iff_false in Hin. rewrite includes_elem in Hin.
    split; [done|]. split; [done|]. intros Hf. by destruct Hin.
Qed.

Lemma toggleSelected_twice_witness :
  selectedFiles
    (exec (toggleSelected (lit "b") ;; toggleSelected (lit "b"))
       (with_selectedFiles [lit "a"; lit "b"; lit "c"] initial_state))
  = [lit "a"; lit "c"; lit "b"].
Proof.
  apply (proj2 (proj2 (toggleSelected_twice (lit "b")
           (with_selectedFiles [lit "a"; lit "b"; lit "c"] initial_state)))).
  vm_compute. right. left.
Defined.

Lemma arrives_fetched (net : net_outcome DocumentsData)
    (r : Response DocumentsData) (data : DocumentsData) :
  arrives net 10000 r → json_body r = Fulfilled data →
  fetched_files net = Some (default [] (files data)).
Proof. unfold arrives, fetched_files. by intros -> ->. Qed.

Lemma refreshDocs_selection (net : net_outcome DocumentsData) (s : State) :
  ∀ f, f ∈ selectedFiles (exec (refreshDocs net) s) → f ∈ selectedFiles s.
Proof.
  intros f. unfold exec. rewrite refreshDocs_run.
  destruct (fetched_files net); cbn; [|done].
  rewrite list_elem_of_In, filter_In, <- list_elem_of_In. tauto.
Qed.

Lemma refreshHealth_selection (net : net_outcome json) (s : State) :
  selectedFiles (exec (refreshHealth net) s) = selectedFiles s.
Proof.
  unfold exec. by destruct (refreshHealth_run net s) as (b & c & ->).
Qed.

Ltac use_refresh :=
  repeat match goal with
  | |- context [refreshDocs ?n ?x] => rewrite (refreshDocs_run n x)
  | |- context [refreshHealth ?n ?x] =>
      let b := fresh "b" in let c := fresh "c" in
      destruct (refreshHealth_run n x) as (b & c & ->)
  end.



(** ** [refreshHealth] *)



(** ** [resetChat] *)

Lemma storage_keys_differ : STORAGE_KEY ≠ SELECTED_KEY.
Proof. by vm_compute. Qed.

(** C10: [resetChat] empties [messages], [input] and [uploadMsg] and removes
    the chat-history item; the documents, the selection, the document search,
    the health cells and every other item of [localStorage], the persisted
    selection among them, stay as they were. *)
Theorem resetChat_frame (s : State) :
  let s' := exec resetChat s in
  result resetChat s = Ok tt ∧
  messages s' = [] ∧ input s' = [] ∧ uploadMsg s' = [] ∧
  localStorage s' !! STORAGE_KEY = None ∧
  docs s' = docs s ∧ selectedFiles s' = selectedFiles s ∧
  docSearch s' = docSearch s ∧ backendOk s' = backendOk s ∧
  chunksIndexed s' = chunksIndexed s ∧
  localStorage s' !! SELECTED_KEY = localStorage s !! SELECTED_KEY ∧
  (∀ k, k ≠ STORAGE_KEY → localStorage s' !! k = localStorage s !! k) ∧
  file s' = file s ∧ uploading s' = uploading s ∧
  docsLoading s' = docsLoading s ∧ loading s' = loading s ∧
  requests s' = requests s.
Proof.
  cbn zeta. unfold result, exec, resetChat. js_run.
  repeat split; try reflexivity.
  - apply lookup_delete_eq.
  - apply lookup_delete_ne, storage_keys_differ.
  - intros k Hk. by apply lookup_delete_ne.
Qed.

(** The effect that persists [messages] runs after the render [resetChat]
    causes, and stores the empty history under the key again. *)
Lemma resetChat_then_commit (s : State) :
  localStorage (step ClickReset s) !! STORAGE_KEY = Some (StoredMessages []) ∧
  messagesRef (step ClickReset s) = [].
Proof.
  unfold step, exec, handler, resetChat, commit. js_run. split; [|done].
  rewrite lookup_insert_ne by (apply not_eq_sym, storage_keys_differ).
  apply lookup_insert_eq.
Qed.

(** ** Timeouts *)

Lemma settle_bound {D} (net : net_outcome D) (t : N) :
  (fst (settle net t) <= t)%N.
Proof.
  destruct net as [d r | d e | ]; cbn; [| |lia];
    destruct (d <? t)%N eqn:Hd; cbn; try lia; apply N.ltb_lt in Hd; lia.
Qed.

Lemma settle_timed_out {D} (net : net_outcome D) (t : N) :
  timed_out net t → settle net t = (t, Rejected AbortError).
Proof.
  destruct net as [d r | d e | ]; cbn; [| |done];
    intros Hd%N.ltb_ge; by rewrite Hd.
Qed.

Lemma error_text_abort (t : jsstring) : error_text t AbortError = t.
Proof. reflexivity. Qed.

Ltac timeout_case H :=
  match type of H with
  | timed_out ?n ?t =>
      let d := fresh "d" in
      destruct n as [d ? | d ? | ]; cbn in H;
      [apply N.ltb_ge in H | apply N.ltb_ge in H | clear H];
      js_run; try rewrite H; js_run; rewrite ?error_text_abort
  end.

Ltac frame_requests :=
  cbn; rewrite ?Forall_app; repeat split; try done; by repeat constructor.

Lemma refreshHealth_timed (net : net_outcome json) (s : State) :
  Forall timed (requests s) → Forall timed (requests (exec (refreshHealth net) s)).
Proof.
  intros Hs. unfold exec.
  destruct (refreshHealth_run net s) as (b & c & ->). frame_requests.
Qed.

Lemma refreshDocs_timed (net : net_outcome DocumentsData) (s : State) :
  Forall timed (requests s) → Forall timed (requests (exec (refreshDocs net) s)).
Proof.
  intros Hs. unfold exec. rewrite refreshDocs_run.
  destruct (fetched_files net); frame_requests.
Qed.

Ltac all_cases env :=
  destruct (net env) as [?d [[] [?t|?e] [?j|?e]] | ?d ?e | ]; js_run;
  try match goal with |- context [(?d <? ?t)%N] => destruct (d <? t)%N end;
  js_run; use_refresh;
  try match goal with
      | |- context [fetched_files ?n] => destruct (fetched_files n)
      end.

Lemma uploadFile_timed (env : Env UploadData) (s : State) :
  Forall timed (requests s) → Forall timed (requests (exec (uploadFile env) s)).
Proof.
  intros Hs. unfold exec, uploadFile. js_run.
  destruct (file s); [|done]. destruct (uploading s); [done|].
  all_cases env; frame_requests.
Qed.

Lemma deleteDoc_timed (f : jsstring) (env : Env DeleteData) (s : State) :
  Forall timed (requests s) → Forall timed (requests (exec (deleteDoc f env) s)).
Proof.
  intros Hs. unfold exec, deleteDoc.
  case_bool_decide; [done|]. destruct (confirm env); [|done]. js_run.
  all_cases env; frame_requests.
Qed.

Lemma clearIndex_timed (env : Env ClearData) (s : State) :
  Forall timed (requests s) → Forall timed (requests (exec (clearIndex env) s)).
Proof.
  intros Hs. unfold exec, clearIndex.
  destruct (confirm env); [|done]. js_run.
  all_cases env; frame_requests.
Qed.

Lemma send_timed (env : Env ChatData) (s : State) :
  Forall timed (requests s) → Forall timed (requests (exec (send env) s)).
Proof.
  intros Hs. unfold exec. destruct (canSend s) eqn:Hc.
  - destruct (send_passes env s Hc) as (reply & b & c & rest & -> & _ & Hrest).
    destruct Hrest as [(-> & _) | ->]; frame_requests.
  - by rewrite (send_blocked env s Hc).
Qed.

Lemma commit_requests (s : State) : requests (exec commit s) = requests s.
Proof. reflexivity. Qed.

Lemma exec_bind_commit (m : M unit) (s : State) :
  requests (exec (m ;; commit) s) = requests (exec m s).
Proof.
  unfold exec, bind. destruct (m s) as [[[]|e] s']; reflexivity.
Qed.

Lemma step_timed (e : Event) (s : State) :
  Forall timed (requests s) → Forall timed (requests (step e s)).
Proof.
  intros Hs. unfold step. rewrite exec_bind_commit.
  destruct e; cbn [handler]; try done.
  - unfold exec, bind.
    pose proof (refreshHealth_timed health s Hs) as H1. unfold exec in H1.
    destruct (refreshHealth_run health s) as (b & c & Heq).
    rewrite Heq in *. by apply refreshDocs_timed.
  - by apply refreshHealth_timed.
  - unfold exec, bind, get. cbn. destruct (docsLoading s); [done|].
    by apply refreshDocs_timed.
  - unfold exec, bind, get. cbn.
    destruct (bool_decide (file s = None) || uploading s); [done|].
    by apply uploadFile_timed.
  - unfold exec, bind, get. cbn. by case_bool_decide.
  - unfold exec, bind, get. cbn. by case_bool_decide.
  - by apply deleteDoc_timed.
  - by apply clearIndex_timed.
  - by apply send_timed.
  - unfold exec, bind, get. cbn. destruct (canSend s); [|done].
    by apply send_timed.
Qed.

Lemma run_timed (es : list Event) (s : State) :
  Forall timed (requests s) → Forall timed (requests (run es s)).
Proof.
  revert s. induction es as [|e es IH]; intros s Hs; [done|].
  cbn. apply IH. by apply step_timed.
Qed.

Lemma refreshHealth_timeout (net : net_outcome json) (s : State) :
  timed_out net 5000 →
  backendOk (exec (refreshHealth net) s) = false ∧
  chunksIndexed (exec (refreshHealth net) s) = None.
Proof.
  intros Ht. unfold exec, refreshHealth. timeout_case Ht; done.
Qed.

Lemma refreshDocs_timeout (net : net_outcome DocumentsData) (s : State) :
  timed_out net 10000 →
  refreshDocs net s =
    (Ok tt, with_docsLoading false
              (with_requests (requests s ++ [documents_request]) s)).
Proof.
  intros Ht. rewrite refreshDocs_run. unfold fetched_files.
  by rewrite (settle_timed_out _ _ Ht).
Qed.

Lemma uploadFile_timeout (env : Env UploadData) (s : State) (f : File) :
  file s = Some f → uploading s = false → timed_out (net env) 60000 →
  uploadMsg (exec (uploadFile env) s) = upload_timeout_text ∧
  uploading (exec (uploadFile env) s) = false.
Proof.
  intros Hf Hu Ht. unfold exec, uploadFile. js_run. rewrite Hf, Hu.
  timeout_case Ht; use_refresh; done.
Qed.

Lemma deleteDoc_timeout (f : jsstring) (env : Env DeleteData) (s : State) :
  f ≠ [] → confirm env = true → timed_out (net env) 15000 →
  messages (exec (deleteDoc f env) s) =
    push (stamp_catch env) system delete_timeout_text None (messages s).
Proof.
  intros Hf Hc Ht. unfold exec, deleteDoc.
  rewrite bool_decide_eq_false_2, Hc by done.
  timeout_case Ht; use_refresh; done.
Qed.

Lemma clearIndex_timeout (env : Env ClearData) (s : State) :
  confirm env = true → timed_out (net env) 20000 →
  messages (exec (clearIndex env) s) =
    push (stamp_catch env) system clear_timeout_text None (messages s).
Proof.
  intros Hc Ht. unfold exec, clearIndex. rewrite Hc.
  timeout_case Ht; use_refresh; done.
Qed.

Lemma send_timeout (env : Env ChatData) (s : State) :
  canSend s = true → timed_out (net env) 30000 →
  messages (exec (send env) s) =
    push (stamp_catch env) assistant chat_timeout_text (Some [])
      (messagesRef s ++ [user_message env s]) ∧
  loading (exec (send env) s) = false.
Proof.
  rewrite canSend_guard. intros Hc%negb_true_iff Ht. unfold exec, send.
  js_run. rewrite Hc. timeout_case Ht; use_refresh; done.
Qed.

Lemma last_push st r c srcs prev :
  last (push st r c srcs prev) = Some (mkMessage (stamp_id st) r c srcs (stamp_ts st)).
Proof. unfold push. apply last_snoc. Qed.




(** * Further properties of the handlers *)

(** ** [send] *)

(** X1: the Send button is enabled exactly when [send] would post: [send]
    issues a chat request if and only if [canSend] holds. *)
Theorem send_iff_canSend (env : Env ChatData) (s : State) :
  canSend s = true ↔ chat_bodies (issued (send env) s) = [chat_body env s].
Proof.
  rewrite send_chat_bodies. by destruct (canSend s).
Qed.



(** X3: what the assistant message says. An ok response gives its [answer]
    (the empty string when missing) with its [sources] (none when missing); a
    response that is not ok gives ["Error: "] and the body text; a fetch that
    fails gives ["Error: "] and the error as a string. *)
Theorem send_reply (env : Env ChatData) (s : State) :
  canSend s = true →
  (∀ r data, arrives (net env) 30000 r → ok r = true →
     json_body r = Fulfilled data →
     last (messages (exec (send env) s)) =
       Some (mkMessage (stamp_id (stamp_ok env)) assistant
               (default [] (answer data)) (Some (default [] (chat_sources data)))
               (stamp_ts (stamp_ok env)))) ∧
  (∀ r txt, arrives (net env) 30000 r → ok r = false →
     text r = Fulfilled txt →
     last (messages (exec (send env) s)) =
       Some (mkMessage (stamp_id (stamp_not_ok env)) assistant
               (lit "Error: " ++ txt) (Some []) (stamp_ts (stamp_not_ok env)))) ∧
  (∀ e, snd (settle (net env) 30000) = Rejected e → isAbortError e = false →
     last (messages (exec (send env) s)) =
       Some (mkMessage (stamp_id (stamp_catch env)) assistant
               (lit "Error: " ++ String_of_error e) (Some [])
               (stamp_ts (stamp_catch env)))).
Proof.
  rewrite canSend_guard. intros Hc%negb_true_iff.
  unfold arrives, exec, send. js_run. rewrite Hc. unfold settle.
  split; [|split].
  - intros r data -> -> ->. js_run. use_refresh. cbn. rewrite last_push.
    by destruct (answer data) as [[|]|].
  - intros r txt -> -> ->. js_run. by rewrite last_push.
  - intros e -> He. js_run. use_refresh. cbn. rewrite last_push.
    unfold error_text. by rewrite He.
Qed.

Lemma send_reply_witness :
  last (messages (exec (send (with_net (answered paris))) demo_state)) =
    Some (mkMessage (lit "1a2b") assistant (lit "Paris.")
            (Some [mkSource (lit "geo.txt") 0
                     (lit "Paris is the capital of France.")])
            1700000000000).
Proof.
  apply (proj1 (send_reply (with_net (answered paris)) demo_state eq_refl)
           (mkResponse true (Fulfilled []) (Fulfilled paris)) paris);
    reflexivity.
Defined.

(** X4: the history has exactly min(12, k) entries, k the number of user
    and assistant messages; with at most 12 of them none is dropped, and
    system messages never take a place. *)
Theorem history_of_length (ms : list Message) :
  length (history_of ms) = Nat.min 12 (length (List.filter is_turn ms)) ∧
  ((length (List.filter is_turn ms) <= 12)%nat →
   history_of ms =
     map (fun m => mkTurn (role m) (content m)) (List.filter is_turn ms)) ∧
  (∀ m, role m = system → ∀ before after,
     history_of (before ++ m :: after) = history_of (before ++ after)).
Proof.
  split; [|split].
  - destruct (history_of_spec ms) as (older & kept & _ & -> & Hlen).
    by rewrite length_map.
  - intros Hle. unfold history_of. change (-12) with (- Z.of_nat 12).
    rewrite slice_last.
    replace (length (List.filter is_turn ms) - 12)%nat with 0%nat by lia. done.
  - intros m Hm before after. unfold history_of.
    rewrite !List.filter_app. cbn. unfold is_turn at 2. by rewrite Hm.
Qed.

(** ** The selection and the document list *)

Lemma elem_of_toggle (f x : jsstring) (l : list jsstring) :
  x ∈ toggle f l ↔ (x = f ∧ f ∉ l) ∨ (x ≠ f ∧ x ∈ l).
Proof.
  unfold toggle. destruct (includes l f) eqn:Hin.
  - apply includes_elem in Hin. rewrite elem_of_without.
    destruct (decide (x = f)) as [->|]; tauto.
  - apply not_true_iff_false in Hin. rewrite includes_elem in Hin.
    rewrite elem_of_app, list_elem_of_singleton.
    destruct (decide (x = f)) as [->|]; tauto.
Qed.

Lemma NoDup_without (f : jsstring) (l : list jsstring) :
  NoDup l → NoDup (without f l).
Proof.
  unfold without. induction 1 as [|x l Hx Hl IH]; cbn; [constructor|].
  destruct (negb (str_eqb x f)); [|done]. constructor; [|done].
  rewrite list_elem_of_In, filter_In, <- list_elem_of_In. tauto.
Qed.

(** X5: [toggleSelected(f)] flips whether [f] is selected and leaves every
    other name as it was; a selection without repeats stays without
    repeats. *)
Theorem toggleSelected_flips (f : jsstring) (s : State) :
  let s' := exec (toggleSelected f) s in
  (f ∈ selectedFiles s' ↔ f ∉ selectedFiles s) ∧
  (∀ x, x ≠ f → (x ∈ selectedFiles s' ↔ x ∈ selectedFiles s)) ∧
  (NoDup (selectedFiles s) → NoDup (selectedFiles s')).
Proof.
  cbn. split; [|split].
  - rewrite elem_of_toggle. tauto.
  - intros x Hx. rewrite elem_of_toggle. tauto.
  - intros Hnd. unfold toggle. destruct (includes (selectedFiles s) f) eqn:Hin.
    + by apply NoDup_without.
    + apply not_true_iff_false in Hin. rewrite includes_elem in Hin.
      apply NoDup_app. split; [done|]. split; [|apply NoDup_singleton].
      intros x Hx ->%list_elem_of_singleton. done.
Qed.

Lemma filter_listed_all (fs : list Doc) (l : list jsstring) :
  (∀ f, f ∈ l → ∃ d, d ∈ fs ∧ file_name d = f) →
  List.filter (listed fs) l = l.
Proof.
  induction l as [|x l IH]; intros Hall; [done|]. cbn.
  replace (listed fs x) with true.
  - f_equal. apply IH. intros f Hf. apply Hall. by right.
  - symmetry. apply listed_elem, Hall. by left.
Qed.

(** X6: after [selectAll] every listed document is selected, in the order
    of the list, and a refresh that fetches the same list keeps that
    selection. *)
Theorem selectAll_selects (net : net_outcome DocumentsData) (s : State) :
  selectedFiles (exec selectAll s) = map file_name (docs s) ∧
  (fetched_files net = Some (docs s) →
   selectedFiles (exec (selectAll ;; refreshDocs net) s)
   = map file_name (docs s)).
Proof.
  split; [done|]. intros Hnet. unfold exec, selectAll. js_run.
  rewrite refreshDocs_run, Hnet. cbn. apply filter_listed_all.
  intros f (d & -> & Hd)%list_elem_of_fmap. by exists d.
Qed.

Lemma selectAll_selects_witness :
  selectedFiles
    (exec (selectAll ;; refreshDocs geo_docs)
       (with_docs [mkDoc (lit "geo.txt") 1] initial_state))
  = [lit "geo.txt"].
Proof.
  apply (proj2 (selectAll_selects geo_docs
                  (with_docs [mkDoc (lit "geo.txt") 1] initial_state))).
  reflexivity.
Defined.


(** X8: [refreshDocs] does not look at [res.ok]: a response whose body
    parses but has no [files], an error response included, empties the
    document list and the selection. *)
Theorem refreshDocs_missing_files (net : net_outcome DocumentsData)
    (s : State) (r : Response DocumentsData) :
  arrives net 10000 r → json_body r = Fulfilled (mkDocumentsData None) →
  docs (exec (refreshDocs net) s) = [] ∧
  selectedFiles (exec (refreshDocs net) s) = [].
Proof.
  intros Hr Hd. unfold exec.
  rewrite refreshDocs_run, (arrives_fetched net r _ Hr Hd). cbn.
  split; [done|]. by induction (selectedFiles s).
Qed.

Lemma refreshDocs_missing_files_witness :
  docs (exec (refreshDocs error_body) demo_state) = [] ∧
  selectedFiles (exec (refreshDocs error_body) demo_state) = [].
Proof.
  apply (refreshDocs_missing_files error_body demo_state
           (mkResponse false (Fulfilled (lit "{}"))
              (Fulfilled (mkDocumentsData None)))); reflexivity.
Defined.

Lemma filter_listed_twice (fs : list Doc) (l : list jsstring) :
  List.filter (listed fs) (List.filter (listed fs) l) = List.filter (listed fs) l.
Proof.
  induction l as [|x l IH]; [done|]. cbn.
  destruct (listed fs x) eqn:Hx; cbn; [|done]. by rewrite Hx, IH.
Qed.

Lemma filter_sublist {A} (p : A → bool) (l : list A) :
  sublist (List.filter p l) l.
Proof.
  induction l as [|x l IH]; cbn; [constructor|].
  destruct (p x); by constructor.
Qed.

(** X9: a refresh only ever removes names from the selection, keeping the
    order of those that stay, and refreshing again with the same answer
    changes neither the document list nor the selection. *)
Theorem refreshDocs_idempotent (net : net_outcome DocumentsData) (s : State) :
  let s1 := exec (refreshDocs net) s in
  let s2 := exec (refreshDocs net) s1 in
  sublist (selectedFiles s1) (selectedFiles s) ∧
  docs s2 = docs s1 ∧ selectedFiles s2 = selectedFiles s1.
Proof.
  cbn zeta. unfold exec. rewrite !refreshDocs_run.
  destruct (fetched_files net) as [fs|]; cbn.
  - split; [apply filter_sublist|]. split; [done|]. apply filter_listed_twice.
  - done.
Qed.

(** ** [refreshHealth] *)

(** X10: the health poll issues one GET on [/health] with a 5000 ms timeout
    and writes [backendOk] and [chunksIndexed] only: messages, input,
    documents, selection, upload hint, busy flags and storage are as
    before. *)
Theorem refreshHealth_frame (net : net_outcome json) (s : State) :
  let s' := exec (refreshHealth net) s in
  issued (refreshHealth net) s = [mkRequest HealthUrl no_options 5000] ∧
  messages s' = messages s ∧ messagesRef s' = messagesRef s ∧
  input s' = input s ∧ docs s' = docs s ∧
  selectedFiles s' = selectedFiles s ∧ docSearch s' = docSearch s ∧
  uploadMsg s' = uploadMsg s ∧ file s' = file s ∧
  loading s' = loading s ∧ uploading s' = uploading s ∧
  docsLoading s' = docsLoading s ∧ localStorage s' = localStorage s.
Proof.
  cbn zeta. rewrite (issued_app _ _ [health_request]).
  2: { unfold exec. by destruct (refreshHealth_run net s) as (b & c & ->). }
  unfold exec. by destruct (refreshHealth_run net s) as (b & c & ->).
Qed.

(** ** [uploadFile] *)

(** X11: with no file picked, or an upload under way, [uploadFile] does
    nothing: no request, no state change. *)
Theorem uploadFile_guard (env : Env UploadData) (s : State) :
  file s = None ∨ uploading s = true → uploadFile env s = (Ok tt, s).
Proof.
  intros Hg. unfold uploadFile. js_run.
  destruct (file s); [|done]. destruct Hg as [Hg|Hg]; [done|]. by rewrite Hg.
Qed.

Lemma uploadFile_guard_witness :
  uploadFile silent initial_state = (Ok tt, initial_state).
Proof. apply uploadFile_guard. by left. Defined.





(** ** [deleteDoc] and [clearIndex] *)

(** X14: an empty name or a refused confirmation stops [deleteDoc], and a
    refused confirmation stops [clearIndex], before any request: the state
    is unchanged. *)
Theorem delete_clear_cancelled :
  (∀ (f : jsstring) (env : Env DeleteData) (s : State),
     f = [] ∨ confirm env = false → deleteDoc f env s = (Ok tt, s)) ∧
  (∀ (env : Env ClearData) (s : State),
     confirm env = false → clearIndex env s = (Ok tt, s)).
Proof.
  split.
  - intros f env s [-> | Hc]; unfold deleteDoc; [done|].
    case_bool_decide; [done|]. by rewrite Hc.
  - intros env s Hc. unfold clearIndex. by rewrite Hc.
Qed.





(** ** Invariants of the state machine *)

Lemma trimStart_idempotent (s : jsstring) : trimStart (trimStart s) = trimStart s.
Proof.
  induction s as [|c s IH]; [done|]. cbn.
  destruct (isWhiteSpace c) eqn:Hc; [done|]. cbn. by rewrite Hc.
Qed.

Lemma trimStart_snoc (s : jsstring) (c : N) :
  isWhiteSpace c = false → trimStart (s ++ [c]) = trimStart s ++ [c].
Proof.
  intros Hc. induction s as [|x s IH]; cbn; [by rewrite Hc|].
  by destruct (isWhiteSpace x).
Qed.

Lemma trimStart_head (s : jsstring) :
  trimStart s = [] ∨ ∃ c s', trimStart s = c :: s' ∧ isWhiteSpace c = false.
Proof.
  induction s as [|c s IH]; [by left|]. cbn.
  destruct (isWhiteSpace c) eqn:Hc; [done|]. right. by exists c, s.
Qed.

Lemma trim_idempotent (s : jsstring) : trim (trim s) = trim s.
Proof.
  unfold trim. destruct (trimStart_head s) as [->|(c & s' & -> & Hc)]; [done|].
  assert (Hend : trimEnd (c :: s') = c :: trimEnd s').
  { unfold trimEnd. cbn. rewrite trimStart_snoc by done.
    by rewrite rev_app_distr. }
  rewrite Hend. cbn. rewrite Hc. rewrite <- Hend.
  unfold trimEnd. by rewrite rev_involutive, trimStart_idempotent.
Qed.

Lemma history_of_last (ms : list Message) (m : Message) :
  is_turn m = true →
  last (history_of (ms ++ [m])) = Some (mkTurn (role m) (content m)).
Proof.
  intros Hm. destruct (history_of_spec (ms ++ [m])) as (older & kept & Hs & -> & Hl).
  rewrite List.filter_app in Hs, Hl. cbn in Hs. rewrite Hm in Hs.
  rewrite length_app in Hl. cbn [List.filter] in Hl. rewrite Hm in Hl.
  change (length [m]) with 1%nat in Hl.
  assert (Hne : kept ≠ []).
  { intros ->. change (length (@nil Message)) with 0%nat in Hl. lia. }
  destruct (exists_last Hne) as (kept' & m' & ->).
  rewrite app_assoc in Hs. apply app_inj_tail in Hs as [_ <-].
  rewrite map_app. simpl. by rewrite last_snoc.
Qed.

Lemma chat_request_well_formed (env : Env ChatData) (s : State) :
  canSend s = true → well_formed (chat_request (chat_body env s)).
Proof.
  rewrite canSend_guard. intros Hc%negb_true_iff.
  apply orb_false_iff in Hc as [Hc _]. apply orb_false_iff in Hc as [Hq _].
  apply bool_decide_eq_false in Hq.
  unfold well_formed. cbn. repeat split; try done.
  - apply trim_idempotent.
  - unfold selected_or_null. by destruct (selectedFiles s).
  - destruct (history_of_spec (messagesRef s ++ [user_message env s]))
      as (older & kept & _ & -> & Hl).
    rewrite length_map. lia.
  - by rewrite history_of_last.
Qed.

Section Log.

(** A property of requests that every request of the handlers has. *)
Variable P : Request → Prop.
Hypothesis P_health : P health_request.
Hypothesis P_documents : P documents_request.
Hypothesis P_upload : ∀ f, P (upload_request f).
Hypothesis P_delete : ∀ f, P (delete_request f).
Hypothesis P_clear : P clear_request.
Hypothesis P_chat :
  ∀ env s, canSend s = true → P (chat_request (chat_body env s)).

Ltac log_requests :=
  cbn; rewrite ?Forall_app; repeat split; try done; repeat constructor;
  first [apply P_health | apply P_documents | apply (P_upload _)
        | apply (P_delete _) | apply P_clear].

Lemma refreshHealth_log (net : net_outcome json) (s : State) :
  Forall P (requests s) → Forall P (requests (exec (refreshHealth net) s)).
Proof.
  intros Hs. unfold exec.
  destruct (refreshHealth_run net s) as (b & c & ->). log_requests.
Qed.

Lemma refreshDocs_log (net : net_outcome DocumentsData) (s : State) :
  Forall P (requests s) → Forall P (requests (exec (refreshDocs net) s)).
Proof.
  intros Hs. unfold exec. rewrite refreshDocs_run.
  destruct (fetched_files net); log_requests.
Qed.

Lemma uploadFile_log (env : Env UploadData) (s : State) :
  Forall P (requests s) → Forall P (requests (exec (uploadFile env) s)).
Proof.
  intros Hs. unfold exec, uploadFile. js_run.
  destruct (file s); [|done]. destruct (uploading s); [done|].
  all_cases env; log_requests.
Qed.

Lemma deleteDoc_log (f : jsstring) (env : Env DeleteData) (s : State) :
  Forall P (requests s) → Forall P (requests (exec (deleteDoc f env) s)).
Proof.
  intros Hs. unfold exec, deleteDoc.
  case_bool_decide; [done|]. destruct (confirm env); [|done]. js_run.
  all_cases env; log_requests.
Qed.

Lemma clearIndex_log (env : Env ClearData) (s : State) :
  Forall P (requests s) → Forall P (requests (exec (clearIndex env) s)).
Proof.
  intros Hs. unfold exec, clearIndex.
  destruct (confirm env); [|done]. js_run.
  all_cases env; log_requests.
Qed.

Lemma send_log (env : Env ChatData) (s : State) :
  Forall P (requests s) → Forall P (requests (exec (send env) s)).
Proof.
  intros Hs. unfold exec. destruct (canSend s) eqn:Hc.
  - destruct (send_passes env s Hc) as (reply & b & c & rest & -> & _ & Hrest).
    pose proof (P_chat env s Hc).
    destruct Hrest as [(-> & _) | ->]; cbn; rewrite ?Forall_app;
      repeat split; try done; repeat constructor; done || apply P_health.
  - by rewrite (send_blocked env s Hc).
Qed.

Lemma step_log (e : Event) (s : State) :
  Forall P (requests s) → Forall P (requests (step e s)).
Proof.
  intros Hs. unfold step. rewrite exec_bind_commit.
  destruct e; cbn [handler]; try done.
  - unfold exec, bind.
    pose proof (refreshHealth_log health s Hs) as H1. unfold exec in H1.
    destruct (refreshHealth_run health s) as (b & c & Heq).
    rewrite Heq in *. by apply refreshDocs_log.
  - by apply refreshHealth_log.
  - unfold exec, bind, get. cbn. destruct (docsLoading s); [done|].
    by apply refreshDocs_log.
  - unfold exec, bind, get. cbn.
    destruct (bool_decide (file s = None) || uploading s); [done|].
    by apply uploadFile_log.
  - unfold exec, bind, get. cbn. by case_bool_decide.
  - unfold exec, bind, get. cbn. by case_bool_decide.
  - by apply deleteDoc_log.
  - by apply clearIndex_log.
  - by apply send_log.
  - unfold exec, bind, get. cbn. destruct (canSend s); [|done].
    by apply send_log.
Qed.

Lemma run_log (es : list Event) (s : State) :
  Forall P (requests s) → Forall P (requests (run es s)).
Proof.
  revert s. induction es as [|e es IH]; intros s Hs; [done|].
  cbn. apply IH. by apply step_log.
Qed.

End Log.

(** X17: whatever the user does and the network answers, every chat request
    in the log is a POST on [/chat] with a 30000 ms timeout whose message is
    non-empty and trimmed, with [top_k = 5], a selection that is [null] or
    non-empty, and a history of at most 12 turns ending with that very
    message; no other request carries a JSON body or goes to [/chat]. *)
Theorem chat_requests_well_formed (es : list Event) (s : State) :
  Forall well_formed (requests s) → Forall well_formed (requests (run es s)).
Proof.
  apply run_log; try done.
  intros env s' Hc. by apply chat_request_well_formed.
Qed.

Lemma chat_requests_well_formed_witness :
  Forall well_formed
    (requests (run [TypeInput (lit " hi "); ClickSend (with_net (answered paris));
                    ClickCheckbox (lit "geo.txt"); TypeInput (lit "more");
                    PressEnter silent]
                   initial_state)).
Proof. apply chat_requests_well_formed. constructor. Defined.

(** ** Every handler returns *)

Lemma uploadFile_returns (env : Env UploadData) (s : State) :
  result (uploadFile env) s = Ok tt ∧
  (idle s → idle (exec (uploadFile env) s)).
Proof.
  unfold result, exec, uploadFile, idle. js_run.
  destruct (file s); [|done].
  destruct (uploading s) eqn:Hu; [split; [done|by intros (? & ? & ?)]|].
  all_cases env; cbn; split; try done; intros (? & ? & ?); done.
Qed.

Lemma deleteDoc_returns (f : jsstring) (env : Env DeleteData) (s : State) :
  result (deleteDoc f env) s = Ok tt ∧
  (idle s → idle (exec (deleteDoc f env) s)).
Proof.
  unfold result, exec, deleteDoc, idle.
  case_bool_decide; [done|]. destruct (confirm env); [|done]. js_run.
  all_cases env; cbn; split; try done; intros (? & ? & ?); done.
Qed.

Lemma clearIndex_returns (env : Env ClearData) (s : State) :
  result (clearIndex env) s = Ok tt ∧
  (idle s → idle (exec (clearIndex env) s)).
Proof.
  unfold result, exec, clearIndex, idle.
  destruct (confirm env); [|done]. js_run.
  all_cases env; cbn; split; try done; intros (? & ? & ?); done.
Qed.

Lemma send_returns (env : Env ChatData) (s : State) :
  result (send env) s = Ok tt ∧ (idle s → idle (exec (send env) s)).
Proof.
  unfold result, exec, idle. destruct (canSend s) eqn:Hc.
  - destruct (send_passes env s Hc) as (reply & b & c & rest & -> & _ & _).
    cbn. split; [done|]. by intros (? & ? & ?).
  - by rewrite (send_blocked env s Hc).
Qed.

Lemma refreshHealth_returns (net : net_outcome json) (s : State) :
  result (refreshHealth net) s = Ok tt ∧
  (idle s → idle (exec (refreshHealth net) s)).
Proof.
  unfold result, exec, idle.
  by destruct (refreshHealth_run net s) as (b & c & ->).
Qed.

Lemma refreshDocs_returns (net : net_outcome DocumentsData) (s : State) :
  result (refreshDocs net) s = Ok tt ∧
  (idle s → idle (exec (refreshDocs net) s)).
Proof.
  unfold result, exec, idle. rewrite refreshDocs_run.
  split; [done|]. intros (? & ? & ?). by destruct (fetched_files net).
Qed.

Lemma handler_returns (e : Event) (s : State) :
  result (handler e) s = Ok tt ∧ (idle s → idle (exec (handler e) s)).
Proof.
  destruct e; cbn [handler]; try (by split).
  - unfold result, exec, bind.
    destruct (refreshHealth_returns health s) as [H1 H2].
    unfold result, exec in H1, H2.
    destruct (refreshHealth health s) as [[[]|] s1]; [|done].
    destruct (refreshDocs_returns docs0 s1) as [H3 H4]. split; [done|].
    intros Hi. by apply H4, H2.
  - apply refreshHealth_returns.
  - unfold result, exec, bind, get. cbn. destruct (docsLoading s); [done|].
    apply refreshDocs_returns.
  - unfold result, exec, bind, get. cbn.
    destruct (bool_decide (file s = None) || uploading s); [done|].
    apply uploadFile_returns.
  - unfold result, exec, bind, get. cbn. by case_bool_decide.
  - unfold result, exec, bind, get. cbn. by case_bool_decide.
  - apply deleteDoc_returns.
  - apply clearIndex_returns.
  - apply send_returns.
  - unfold result, exec, bind, get. cbn. destruct (canSend s); [|done].
    apply send_returns.
Qed.

Lemma step_commit (e : Event) (s : State) :
  step e s = exec commit (exec (handler e) s).
Proof.
  unfold step, exec, bind. destruct (handler_returns e s) as [Hr _].
  unfold result in Hr. by destruct (handler e s) as [[[]|] s1].
Qed.





(** X20: after New chat / Reset and the render it causes, the chat-history
    item, removed by the handler, is back in [localStorage], holding the
    empty list; the messages and the ref are empty and the selection is
    kept. *)
Theorem reset_then_render (s : State) :
  let s' := step ClickReset s in
  localStorage (exec resetChat s) !! STORAGE_KEY = None ∧
  localStorage s' !! STORAGE_KEY = Some (StoredMessages []) ∧
  messages s' = [] ∧ messagesRef s' = [] ∧
  selectedFiles s' = selectedFiles s.
Proof.
  cbn zeta. rewrite step_commit.
  unfold exec, commit, handler, resetChat. js_run.
  split; [apply lookup_delete_eq|]. split; [|done].
  rewrite lookup_insert_ne by (apply not_eq_sym, storage_keys_differ).
  apply lookup_insert_eq.
Qed.

(** ** What is shown *)

Lemma starts_with_spec (q s : jsstring) :
  starts_with q s = true ↔ ∃ b, s = q ++ b.
Proof.
  revert s. induction q as [|a q IH]; intros s; cbn.
  - split; [by exists s|done].
  - destruct s as [|c s]; [split; [done|by intros (b & ?)]|].
    rewrite andb_true_iff, bool_decide_eq_true, IH. split.
    + intros (-> & b & ->). by exists b.
    + intros (b & [= -> ->]). split; [done|]. by exists b.
Qed.

Lemma str_includes_spec (s q : jsstring) :
  str_includes s q = true ↔ ∃ a b, s = a ++ q ++ b.
Proof.
  induction s as [|c s IH]; cbn.
  - rewrite orb_false_r, starts_with_spec. split.
    + intros (b & ->). by exists [], b.
    + intros (a & b & H). symmetry in H.
      apply app_eq_nil in H as [-> H]. cbn in H.
      apply app_eq_nil in H as [-> ->]. by exists [].
  - rewrite orb_true_iff, starts_with_spec, IH. split.
    + intros [(b & ->) | (a & b & ->)]; [by exists [], b|by exists (c :: a), b].
    + intros ([|x a] & b & H); cbn in H.
      * left. by exists b.
      * right. injection H as -> ->. by exists a, b.
Qed.

(** X21: the documents shown are those whose lower-cased name contains the
    trimmed, lower-cased search text, in the order of the list; so an empty
    search text shows them all. *)
Theorem filteredDocs_spec (toLowerCase : jsstring → jsstring) (s : State) :
  let q := toLowerCase (trim (docSearch s)) in
  filteredDocs toLowerCase s
  = List.filter (fun d => str_includes (toLowerCase (file_name d)) q) (docs s) ∧
  sublist (filteredDocs toLowerCase s) (docs s) ∧
  (∀ d, d ∈ filteredDocs toLowerCase s ↔
        d ∈ docs s ∧ ∃ a b, toLowerCase (file_name d) = a ++ q ++ b) ∧
  (q = [] → filteredDocs toLowerCase s = docs s).
Proof.
  cbn zeta. set (q := toLowerCase (trim (docSearch s))).
  assert (Heq : filteredDocs toLowerCase s
    = List.filter (fun d => str_includes (toLowerCase (file_name d)) q) (docs s)).
  { unfold filteredDocs. fold q. case_bool_decide as Hq; [|done].
    rewrite Hq. induction (docs s) as [|d l IH]; [done|]. cbn.
    replace (str_includes (toLowerCase (file_name d)) []) with true.
    - by rewrite <- IH.
    - symmetry. apply str_includes_spec. by exists [], (toLowerCase (file_name d)). }
  split; [done|]. split; [rewrite Heq; apply filter_sublist|]. split.
  - intros d. rewrite Heq, list_elem_of_In, filter_In, <- list_elem_of_In.
    by rewrite str_includes_spec.
  - intros Hq. unfold filteredDocs. fold q. by rewrite bool_decide_eq_true_2.
Qed.

Lemma digits_head (n : nat) :
  ∃ c rest, Z_to_jsstring (Z.of_nat (S n)) = c :: rest ∧ (48 <= c <= 57)%N.
Proof.
  unfold Z_to_jsstring.
  change (Z.of_nat (S n)) with (Z.pos (Pos.of_succ_nat n)).
  set (p := Pos.of_succ_nat n).
  change (Z.to_int (Z.pos p)) with (Decimal.Pos (Pos.to_uint p)).
  pose proof (DecimalPos.Unsigned.to_uint_nonnil p) as Hp.
  unfold NilZero.string_of_int, NilZero.string_of_uint.
  destruct (Pos.to_uint p) as [|u|u|u|u|u|u|u|u|u|u]; [done|..];
    cbn; eexists _, _; (split; [reflexivity|lia]).
Qed.

(** X22: the two labels say what the state holds: the scope label reads
    "tous les documents" exactly when the selection is empty, that is when
    [send] would post [selected_files = null], and the health label reads
    "Backend: DOWN" exactly when [backendOk] is false. *)
Theorem labels_spec (s : State) :
  (scopeLabel s = lit "Recherche: tous les documents"
   ↔ selected_or_null (selectedFiles s) = None) ∧
  (selected_or_null (selectedFiles s) = None ↔ selectedFiles s = []) ∧
  (healthLabel s = lit "Backend: DOWN" ↔ backendOk s = false).
Proof.
  split; [|split].
  - unfold scopeLabel, selected_or_null.
    destruct (selectedFiles s) as [|f l]; [done|].
    change (length (f :: l)) with (S (length l)).
    destruct (digits_head (length l)) as (c & rest & Hd & Hc).
    replace (Z.of_nat (S (length l)) =? 0) with false
      by (symmetry; apply Z.eqb_neq; lia).
    replace (0 <? Z.of_nat (S (length l))) with true
      by (symmetry; apply Z.ltb_lt; lia).
    rewrite Hd. split; [|done]. intros H. exfalso.
    vm_compute in H. injection H as H. lia.
  - unfold selected_or_null. by destruct (selectedFiles s).
  - unfold healthLabel. destruct (backendOk s); [|done].
    split; [|done]. intros H. exfalso. vm_compute in H.
    destruct (chunksIndexed s); discriminate H.
Qed.

(** X23: the keyboard and the button agree: Enter without Shift does in
    every state what a click on Send does, the button being disabled exactly
    when [send] would return at its guard; any other key, and Shift+Enter,
    leaves the state alone and issues nothing. *)
Theorem onKeyDown_spec (key : jsstring) (shiftKey : bool)
    (env : Env ChatData) (s : State) :
  onKeyDown (lit "Enter") false env s = handler (ClickSend env) s ∧
  (key ≠ lit "Enter" ∨ shiftKey = true →
   onKeyDown key shiftKey env s = (Ok tt, s) ∧
   issued (onKeyDown key shiftKey env) s = []).
Proof.
  split.
  - unfold onKeyDown, handler, bind, get. cbn.
    destruct (canSend s) eqn:Hc; [done|]. by apply send_blocked.
  - intros Hk. unfold onKeyDown, str_eqb.
    replace (bool_decide (key = lit "Enter") && negb shiftKey) with false.
    + split; [done|]. unfold issued, exec. cbn. by rewrite drop_all.
    + symmetry. destruct Hk as [Hk | ->]; [|by rewrite andb_false_r].
      by rewrite bool_decide_eq_false_2.
Qed.
